(** * orb3 core: query algebra, lookup-context merge, record state machine

  A shallow embedding of [orb/core/query.py], [orb/core/context.py] and
  [orb/core/model.py].  Python dictionaries owned by a record are finite
  maps; dictionaries passed as literals are association lists in insertion
  order; exceptions are values of [exn]; coroutines are run to completion
  in program order (the scheduler is cooperative and the modelled bodies
  have no suspension point of their own). *)

From stdpp Require Import gmap strings list fin_maps.
From Stdlib Require Import ZArith String Ascii.

Set Warnings "-register-all".

Local Open Scope string_scope.
Local Open Scope Z_scope.

(** ** Python runtime fragments *)

Module Py.

(** Exceptions raised by the modelled code.  [ReadOnly] is
    [orb.exceptions.ReadOnly]; [RuntimeError] carries its message;
    [StoreError] stands for any failure raised by a backend. *)
Inductive exn : Type :=
| KeyError (key : string)
| IndexError
| TypeError
| AttributeError (attr : string)
| RuntimeError (msg : string)
| ReadOnly (name : string)
| StoreError (code : nat).

Inductive result (A : Type) : Type :=
| Ok (a : A)
| Err (e : exn).
Arguments Ok {A} a.
Arguments Err {A} e.

Definition bind {A B} (m : result A) (k : A -> result B) : result B :=
  match m with
  | Ok a => k a
  | Err e => Err e
  end.

(** Payload of a heap object that a record field or a query can hold. *)
Inductive Payload : Type :=
| DInt (z : Z)
| DStr (s : string)
| DOpaque.

(** A Python value as record fields see it: the [None] singleton, or an
    object with an identity.  [value is other] compares identities. *)
Inductive PyVal : Type :=
| PyNone
| PyObj (oid : nat) (data : Payload).

Definition py_is (a b : PyVal) : bool :=
  match a, b with
  | PyNone, PyNone => true
  | PyObj i _, PyObj j _ => Nat.eqb i j
  | _, _ => false
  end.

(** Truth value of [a == b]: integers and strings compare by content,
    any other object by identity. *)
Definition py_eq (a b : PyVal) : bool :=
  match a, b with
  | PyNone, PyNone => true
  | PyObj i (DInt x), PyObj j (DInt y) => Z.eqb x y
  | PyObj i (DStr x), PyObj j (DStr y) => String.eqb x y
  | PyObj i DOpaque, PyObj j DOpaque => Nat.eqb i j
  | _, _ => false
  end.

(** An object that may have methods of its own: not [None], not an
    integer, not a string. *)
Definition is_opaque (v : PyVal) : bool :=
  match v with
  | PyObj _ DOpaque => true
  | _ => false
  end.

(** What [asyncio.gather] makes of coroutines that have run to their end
    one after the other: the first exception, else the list of the
    results. *)
Fixpoint gathered {A} (outcomes : list (result A)) : result (list A) :=
  match outcomes with
  | [] => Ok []
  | Err e :: _ => Err e
  | Ok a :: rest =>
      match gathered rest with
      | Err e => Err e
      | Ok others => Ok (a :: others)
      end
  end.

(** [str.split(sep)] for a one-character separator. *)
Fixpoint split_on (sep : ascii) (s : string) : list string :=
  match s with
  | EmptyString => [EmptyString]
  | String c rest =>
      if Ascii.eqb c sep then EmptyString :: split_on sep rest
      else match split_on sep rest with
           | [] => [String c EmptyString]
           | w :: ws => String c w :: ws
           end
  end.

Definition mem_ascii (c : ascii) (chars : list ascii) : bool :=
  existsb (Ascii.eqb c) chars.

Fixpoint lstrip (chars : list ascii) (s : string) : string :=
  match s with
  | EmptyString => EmptyString
  | String c rest => if mem_ascii c chars then lstrip chars rest else s
  end.

Fixpoint rstrip (chars : list ascii) (s : string) : string :=
  match s with
  | EmptyString => EmptyString
  | String c rest =>
      match rstrip chars rest with
      | EmptyString => if mem_ascii c chars then EmptyString
                       else String c EmptyString
      | r => String c r
      end
  end.

(** [str.strip(chars)] *)
Definition strip (chars : list ascii) (s : string) : string :=
  rstrip chars (lstrip chars s).

(** [str.startswith(c)] for a one-character prefix. *)
Definition startswith (c : ascii) (s : string) : bool :=
  match s with
  | String c' _ => Ascii.eqb c' c
  | EmptyString => false
  end.

(** [str.rpartition(sep)] without the separator component: the text
    before the last [sep] and the text after it; when [sep] does not
    occur the head is empty and the tail is the whole string. *)
Fixpoint rfind_split (sep : ascii) (s : string) : option (string * string) :=
  match s with
  | EmptyString => None
  | String c rest =>
      match rfind_split sep rest with
      | Some (h, t) => Some (String c h, t)
      | None => if Ascii.eqb c sep then Some (EmptyString, rest) else None
      end
  end.

Definition rpartition (sep : ascii) (s : string) : string * string :=
  match rfind_split sep s with
  | Some ht => ht
  | None => (EmptyString, s)
  end.

Definition str_truthy (s : string) : bool :=
  match s with EmptyString => false | _ => true end.

(** [str.partition(sep)] without the separator component: the text
    before the first [sep] and the text after it; when [sep] does not
    occur the head is the whole string and the tail is empty. *)
Fixpoint find_split (sep : ascii) (s : string) : option (string * string) :=
  match s with
  | EmptyString => None
  | String c rest =>
      if Ascii.eqb c sep then Some (EmptyString, rest)
      else match find_split sep rest with
           | Some (h, t) => Some (String c h, t)
           | None => None
           end
  end.

Definition partition (sep : ascii) (s : string) : string * string :=
  match find_split sep s with
  | Some ht => ht
  | None => (s, EmptyString)
  end.

(** [sep.join(parts)] *)
Fixpoint join (sep : string) (parts : list string) : string :=
  match parts with
  | [] => EmptyString
  | [p] => p
  | p :: rest => String.append p (String.append sep (join sep rest))
  end.

End Py.

Export Py.

Notation "'do' x <- m ; k" := (Py.bind m (fun x => k))
  (at level 10, x name, m at level 100, k at level 200).
Notation "'do' ' p <- m ; k" := (Py.bind m (fun x => match x with p => k end))
  (at level 10, p pattern, m at level 100, k at level 200).

(** ** query.py *)

Module Query.

Inductive QueryOp : Type := Is | IsNot.

(** Instance attributes set by [Query.__init__]. *)
Record t : Type := Q {
  model : string;
  name : string;
  op : QueryOp;
  value : PyVal
}.

(** [Query(name='', model='', op=QueryOp.Is, value=None)] *)
Definition __init__ (name model : string) (op : QueryOp) (value : PyVal) : t :=
  {| model := model; name := name; op := op; value := value |}.

Definition default_model : string := "".
Definition default_name : string := "".

(** [Query()] *)
Definition empty : t := __init__ default_name default_model Is PyNone.

(** [Query(name)] *)
Definition of_name (n : string) : t := __init__ n default_model Is PyNone.

(** The [values] argument of [clone]: the keys that [__eq__] and
    [__ne__] pass are [op] and [value]; [name] and [model] are the other
    constructor keywords. *)
Record overrides : Type := {
  o_name : option string;
  o_model : option string;
  o_op : option QueryOp;
  o_value : option PyVal
}.

(** [clone]: [defaults] holds [name], [op] and [value] of the receiver,
    is updated with [values], and is splatted into the constructor, so a
    keyword missing from the dictionary takes the constructor default. *)
Definition clone (self : t) (values : overrides) : t :=
  __init__ (default (name self) (o_name values))
       (default default_model (o_model values))
       (default (op self) (o_op values))
       (default (value self) (o_value values)).

Definition __eq__ (self : t) (other : PyVal) : t :=
  clone self {| o_name := None; o_model := None;
                o_op := Some Is; o_value := Some other |}.

Definition __ne__ (self : t) (other : PyVal) : t :=
  clone self {| o_name := None; o_model := None;
                o_op := Some IsNot; o_value := Some other |}.

(** [is_null] *)
Definition is_null (self : t) : bool :=
  negb (str_truthy (name self) || str_truthy (model self)).

End Query.

(** ** query_group.py *)

Module QueryGroup.

(** Modelled from the spec: [query_group.py] is not among the sources.
    The operator of a group. *)
Inductive QueryGroupOp : Type := And | Or.

(** Modelled from the spec: [query_group.py] is not among the sources.
    A predicate is a Query node, or a Query Group with an operator and
    an ordered sequence of members. *)
Inductive Pred : Type :=
| Node (q : Query.t)
| Group (op : QueryGroupOp) (members : list Pred).

Definition op_eqb (a b : QueryGroupOp) : bool :=
  match a, b with
  | And, And | Or, Or => true
  | _, _ => false
  end.

(** Modelled from the spec: the [is_null] of a group is not among the
    sources.  On a node it is [Query.is_null]; a group is null when it
    has no nested members. *)
Definition is_null (p : Pred) : bool :=
  match p with
  | Node q => Query.is_null q
  | Group _ members => match members with [] => true | _ => false end
  end.

(** Modelled from the spec: chaining combinations of the same operator
    flattens into one member list.  A group of operator [op] contributes
    its members to a group of operator [op], anything else is one
    member. *)
Definition members_for (op : QueryGroupOp) (p : Pred) : list Pred :=
  match p with
  | Group op' members => if op_eqb op op' then members else [p]
  | Node _ => [p]
  end.

(** Modelled from the spec: [make_query_group] of [query_group.py] is
    not among the sources.  [make_query_group left right op] combines
    two predicates into a group with operator [op]; an absent ([None])
    or null predicate on one side yields the other side unchanged (the
    left one when both are null, a case the spec leaves open); chains of
    the same operator are flattened into one member list. *)
Definition make_query_group (left : Pred) (right : option Pred)
    (op : QueryGroupOp) : Pred :=
  match right with
  | None => left
  | Some r =>
      if is_null r then left
      else if is_null left then r
      else Group op (members_for op left ++ members_for op r)
  end.

(** [Query.__and__] and [Query.__or__] hand the receiver and the other
    operand to [make_query_group]; the methods of a group are taken to
    do the same. *)
Definition __and__ (self : Pred) (other : option Pred) : Pred :=
  make_query_group self other And.

Definition __or__ (self : Pred) (other : option Pred) : Pred :=
  make_query_group self other Or.


End QueryGroup.

Export QueryGroup.

(** ** context.py *)

Module Context.

Inductive Ordering : Type := Asc | Desc.

Inductive ReturnType : Type := Data | Records.

(** Instance attributes of a [Context], over the type of the values they
    hold.  [_limit] and [_start] back the [limit] and [start] properties.
    [assigned] holds attributes assigned on the instance after
    construction (a Python instance is open); [__init__] sets none. *)
Record attrs (V : Type) : Type := Attrs {
  distinct : V;
  fields : V;
  locale : V;
  _limit : V;
  namespace : V;
  order : V;
  page : V;
  page_size : V;
  returning : V;
  scope : V;
  _start : V;
  timezone : V;
  where_ : V;
  assigned : list (string * V)
}.
Arguments Attrs {V}.
Arguments distinct {V}.
Arguments fields {V}.
Arguments locale {V}.
Arguments _limit {V}.
Arguments namespace {V}.
Arguments order {V}.
Arguments page {V}.
Arguments page_size {V}.
Arguments returning {V}.
Arguments scope {V}.
Arguments _start {V}.
Arguments timezone {V}.
Arguments where_ {V}.
Arguments assigned {V}.

(** The values that lookup options and context attributes range over.
    [VObject] is any other object, known by its identity only (a store
    handle, for one). *)
Inductive Value : Type :=
| VNone
| VInt (z : Z)
| VStr (s : string)
| VList (items : list Value)
| VTuple (items : list Value)
| VDict (items : list (string * Value))
| VOrdering (o : Ordering)
| VReturnType (r : ReturnType)
| VPred (p : Pred)
| VContext (c : attrs Value)
| VObject (oid : nat).

Abbreviation t := (attrs Value).
Abbreviation Options := (gmap string Value).

(** Truth value of an object: [None], zero and empty containers are
    false; enum members, queries, contexts and other objects are true. *)
Definition truthy (v : Value) : bool :=
  match v with
  | VNone => false
  | VInt z => negb (Z.eqb z 0)
  | VStr s => str_truthy s
  | VList items | VTuple items => match items with [] => false | _ => true end
  | VDict items => match items with [] => false | _ => true end
  | VOrdering _ | VReturnType _ | VPred _ | VContext _ | VObject _ => true
  end.

(** [a or b] *)
Definition py_or (a b : Value) : Value := if truthy a then a else b.

Fixpoint assoc {A} (k : string) (d : list (string * A)) : option A :=
  match d with
  | [] => None
  | (k', v) :: rest => if String.eqb k k' then Some v else assoc k rest
  end.

(** [d[k] = v] on a dictionary kept in insertion order. *)
Fixpoint dict_set {A} (k : string) (v : A) (d : list (string * A))
    : list (string * A) :=
  match d with
  | [] => [(k, v)]
  | (k', v') :: rest =>
      if String.eqb k k' then (k, v) :: rest else (k', v') :: dict_set k v rest
  end.

(** [d.update(other)] for two dictionaries. *)
Definition dict_update {A} (d other : list (string * A)) : list (string * A) :=
  fold_left (fun acc kv => dict_set (fst kv) (snd kv) acc) other d.

Definition ordering_eqb (a b : Ordering) : bool :=
  match a, b with
  | Asc, Asc | Desc, Desc => true
  | _, _ => false
  end.

Definition returntype_eqb (a b : ReturnType) : bool :=
  match a, b with
  | Data, Data | Records, Records => true
  | _, _ => false
  end.

(** Truth value of [a == b].  [Query.__eq__] returns a new query, which
    is true, whichever side the query stands on; contexts have no
    [__eq__] and compare by identity, which the model does not track:
    two contexts are taken as different objects. *)
Fixpoint value_eqb (a b : Value) {struct a} : bool :=
  match a, b with
  | VPred _, _ | _, VPred _ => true
  | VNone, VNone => true
  | VInt x, VInt y => Z.eqb x y
  | VStr x, VStr y => String.eqb x y
  | VList xs, VList ys | VTuple xs, VTuple ys =>
      (fix go (l : list Value) (r : list Value) : bool :=
         match l, r with
         | [], [] => true
         | x :: l', y :: r' => value_eqb x y && go l' r'
         | _, _ => false
         end) xs ys
  | VDict xs, VDict ys =>
      Nat.eqb (List.length xs) (List.length ys) &&
      (fix all (l : list (string * Value)) : bool :=
         match l with
         | [] => true
         | (k, x) :: l' =>
             match assoc k ys with
             | Some y => value_eqb x y
             | None => false
             end && all l'
         end) xs
  | VOrdering x, VOrdering y => ordering_eqb x y
  | VReturnType x, VReturnType y => returntype_eqb x y
  | VObject x, VObject y => Nat.eqb x y
  | _, _ => false
  end.

(** [x in items] on a list. *)
Definition py_in (x : Value) (items : list Value) : bool :=
  existsb (fun y => value_eqb y x) items.

Fixpoint chars (s : string) : list string :=
  match s with
  | EmptyString => []
  | String c rest => String c EmptyString :: chars rest
  end.

(** Iteration over a value: lists and tuples give their items, a string
    its characters, a dictionary its keys; other values are not
    iterable. *)
Definition py_iter (v : Value) : result (list Value) :=
  match v with
  | VList items | VTuple items => Ok items
  | VStr s => Ok (map VStr (chars s))
  | VDict items => Ok (map (fun kv => VStr (fst kv)) items)
  | _ => Err TypeError
  end.

(** [a - 1] and [a * b], where the left operand of [*] is an integer:
    an integer times a sequence repeats the sequence. *)
Definition py_pred (a : Value) : result Value :=
  match a with
  | VInt z => Ok (VInt (z - 1))
  | _ => Err TypeError
  end.

Fixpoint str_repeat (n : nat) (s : string) : string :=
  match n with
  | O => EmptyString
  | S n' => String.append s (str_repeat n' s)
  end.

Definition py_mul (a b : Value) : result Value :=
  match a, b with
  | VInt x, VInt y => Ok (VInt (x * y))
  | VInt x, VStr s => Ok (VStr (str_repeat (Z.to_nat x) s))
  | VInt x, VList items => Ok (VList (List.concat (repeat items (Z.to_nat x))))
  | VInt x, VTuple items => Ok (VTuple (List.concat (repeat items (Z.to_nat x))))
  | _, _ => Err TypeError
  end.

(** [Context.__init__]: the keyword arguments in the order of the
    signature; a false [scope] is replaced by an empty dictionary. *)
Definition __init__ (distinct fields locale limit namespace order page
    page_size returning scope start timezone where_ : Value) : t :=
  {| distinct := distinct;
     fields := fields;
     locale := locale;
     _limit := limit;
     namespace := namespace;
     order := order;
     page := page;
     page_size := page_size;
     returning := returning;
     scope := py_or scope (VDict []);
     _start := start;
     timezone := timezone;
     where_ := where_;
     assigned := [] |}.

Definition get_limit (self : t) : Value :=
  py_or (page_size self) (_limit self).

Definition get_start (self : t) : result Value :=
  if truthy (page self) then
    do p <- py_pred (page self);
    py_mul p (py_or (get_limit self) (VInt 0))
  else Ok (_start self).

(** [self.store]: the class defines no [store] and [__init__] sets none,
    so the lookup is resolved by the attributes assigned on the instance
    and raises [AttributeError] when there is none of that name. *)
Definition store (self : t) : result Value :=
  match assoc "store" (assigned self) with
  | Some v => Ok v
  | None => Err (AttributeError "store")
  end.

(** [base_context.attr if base_context else otherwise] *)
Definition inherit (base_context : Value) (attr_name : string)
    (attr : t -> Value) (otherwise : Value) : result Value :=
  if truthy base_context then
    match base_context with
    | VContext c => Ok (attr c)
    | _ => Err (AttributeError attr_name)
    end
  else Ok otherwise.

(** [s.split(',')] as a list object *)
Definition split_names (s : string) : Value :=
  VList (map VStr (split_on "," s)).

Definition _merge_distinct (options : Options) (base_context : Value)
    : result Value :=
  match options !! "distinct" with
  | None => inherit base_context "distinct" distinct VNone
  | Some (VStr s) => Ok (split_names s)
  | Some distinct => Ok distinct
  end.

(** [fields + base_fields], with [base_fields] the items of the base
    context's fields that are not in [fields]; only a list can take the
    concatenation with the list [base_fields]. *)
Definition append_missing (fields base_fields : Value) : result Value :=
  do base_items <- py_iter base_fields;
  match fields with
  | VList items =>
      Ok (VList (items ++ List.filter (fun f => negb (py_in f items)) base_items))
  | _ => Err TypeError
  end.

Definition _merge_fields (options : Options) (base_context : Value)
    : result Value :=
  match options !! "fields" with
  | None => inherit base_context "fields" fields VNone
  | Some v =>
      let fields_ := match v with VStr s => split_names s | _ => v end in
      if truthy fields_ && truthy base_context then
        do base_fields <- inherit base_context "fields" fields VNone;
        if truthy base_fields then append_missing fields_ base_fields
        else Ok fields_
      else Ok fields_
  end.

Definition _merge_limit (options : Options) (base_context : Value)
    : result Value :=
  match options !! "limit" with
  | Some v => Ok v
  | None => inherit base_context "_limit" _limit VNone
  end.

Definition _merge_locale (options : Options) (base_context : Value)
    : result Value :=
  match options !! "locale" with
  | Some v => Ok v
  | None => inherit base_context "locale" locale VNone
  end.

Definition _merge_namespace (options : Options) (base_context : Value)
    : result Value :=
  match options !! "namespace" with
  | Some v => Ok v
  | None => inherit base_context "namespace" namespace VNone
  end.

(** One token of the string form of [order]. *)
Definition order_part (part : string) : Value :=
  VTuple [VStr (strip ["+"; "-"]%char part);
          VOrdering (if startswith "-" part then Desc else Asc)].

Definition _merge_order (options : Options) (base_context : Value)
    : result Value :=
  match options !! "order" with
  | None => inherit base_context "order" order VNone
  | Some (VStr s) => Ok (VList (map order_part (split_on "," s)))
  | Some order => Ok order
  end.

Definition _merge_page (options : Options) (base_context : Value)
    : result Value :=
  match options !! "page" with
  | Some v => Ok v
  | None => inherit base_context "page" page VNone
  end.

Definition _merge_page_size (options : Options) (base_context : Value)
    : result Value :=
  match options !! "page_size" with
  | Some v => Ok v
  | None => inherit base_context "page_size" page_size VNone
  end.

(** The right operand of [&] and [|] on a predicate: a predicate or
    [None].  What [make_query_group] does with any other object is not
    described; the model raises [TypeError]. *)
Definition as_operand (v : Value) : result (option Pred) :=
  match v with
  | VNone => Ok None
  | VPred p => Ok (Some p)
  | _ => Err TypeError
  end.

(** [a & b]: dispatches on the left operand; integers take the bitwise
    and, a predicate its [__and__]; no other value of the options has
    the operator. *)
Definition py_and (a b : Value) : result Value :=
  match a with
  | VPred p => do other <- as_operand b; Ok (VPred (__and__ p other))
  | VInt x => match b with VInt y => Ok (VInt (Z.land x y)) | _ => Err TypeError end
  | _ => Err TypeError
  end.

Definition is_none (v : Value) : bool :=
  match v with VNone => true | _ => false end.

Definition _merge_query (options : Options) (base_context : Value)
    : result Value :=
  match options !! "where" with
  | None => inherit base_context "where" where_ VNone
  | Some query =>
      if negb (is_none query) && truthy base_context then
        do base_where <- inherit base_context "where" where_ VNone;
        py_and query base_where
      else Ok query
  end.

Definition _merge_returning (options : Options) (base_context : Value)
    : result Value :=
  match options !! "returning" with
  | Some v => Ok v
  | None => inherit base_context "returning" returning (VReturnType Records)
  end.

(** [new_scope = {}; new_scope.update(base); new_scope.update(scope)]:
    a scope is a dictionary; an update from a true value that is not
    one is taken to raise [TypeError]. *)
Definition update_scope (base scope_ : Value) : result Value :=
  match base, scope_ with
  | VDict b, VDict s => Ok (VDict (dict_update (dict_update [] b) s))
  | _, _ => Err TypeError
  end.

Definition _merge_scope (options : Options) (base_context : Value)
    : result Value :=
  match options !! "scope" with
  | None => inherit base_context "scope" scope VNone
  | Some scope_ =>
      if truthy scope_ && truthy base_context then
        do base_scope <- inherit base_context "scope" scope VNone;
        update_scope base_scope scope_
      else Ok scope_
  end.

Definition _merge_start (options : Options) (base_context : Value)
    : result Value :=
  match options !! "start" with
  | Some v => Ok v
  | None => inherit base_context "_start" _start VNone
  end.

Definition _merge_timezone (options : Options) (base_context : Value)
    : result Value :=
  match options !! "timezone" with
  | Some v => Ok v
  | None => inherit base_context "timezone" timezone VNone
  end.

(** [make_context]: [options] is the keyword dictionary; the keyword arguments of [Context(...)]
    are evaluated in the order they are written; the first exception
    ends the call. *)
Definition make_context (options : Options) : result t :=
  let base_context := default VNone (options !! "context") in
  do distinct <- _merge_distinct options base_context;
  do fields <- _merge_fields options base_context;
  do locale <- _merge_locale options base_context;
  do limit <- _merge_limit options base_context;
  do namespace <- _merge_namespace options base_context;
  do order <- _merge_order options base_context;
  do page <- _merge_page options base_context;
  do page_size <- _merge_page_size options base_context;
  do returning <- _merge_returning options base_context;
  do scope <- _merge_scope options base_context;
  do start <- _merge_start options base_context;
  do timezone <- _merge_timezone options base_context;
  do where_ <- _merge_query options base_context;
  Ok (__init__ distinct fields locale limit namespace order page page_size
        returning scope start timezone where_).

(** [set_limit] and [set_start], the setters of the [limit] and [start]
    properties. *)
Definition set_limit (self : t) (limit : Value) : t :=
  {| distinct := distinct self; fields := fields self;
     locale := locale self; _limit := limit;
     namespace := namespace self; order := order self; page := page self;
     page_size := page_size self; returning := returning self;
     scope := scope self; _start := _start self;
     timezone := timezone self; where_ := where_ self;
     assigned := assigned self |}.

Definition set_start (self : t) (start : Value) : t :=
  {| distinct := distinct self; fields := fields self;
     locale := locale self; _limit := _limit self;
     namespace := namespace self; order := order self; page := page self;
     page_size := page_size self; returning := returning self;
     scope := scope self; _start := start;
     timezone := timezone self; where_ := where_ self;
     assigned := assigned self |}.

(** The string form of one item of [order]: the name, after [-] for a
    descending item and, when [plus] is set, after [+] for an ascending
    one. *)
Definition order_token (plus : bool) (item : string * Ordering) : string :=
  match snd item with
  | Desc => String "-" (fst item)
  | Asc => if plus then String "+" (fst item) else fst item
  end.

(** A name that the string form of [order] can carry: no comma, and no
    sign at either end. *)
Definition order_name (n : string) : Prop :=
  ~ In ","%char (list_ascii_of_string n) /\
  strip ["+"; "-"]%char n = n.

(** The option keys that [make_context] reads. *)
Definition recognized : list string :=
  ["context"; "distinct"; "fields"; "locale"; "limit"; "namespace";
   "order"; "page"; "page_size"; "returning"; "scope"; "start";
   "timezone"; "where"].

End Context.

(** ** model.py *)

Module Model.

Import Context.

(** Private state of a record: [self.context], [self.__state],
    [self.__changes] and [self.__collections]. *)
Record t : Type := Instance {
  context : Context.t;
  __state : gmap string PyVal;
  __changes : gmap string PyVal;
  __collections : gmap string PyVal
}.

(** A coroutine that receives the record and a value, may change the
    record, and returns or raises. *)
Definition setter : Type := t -> PyVal -> t * result PyVal.

Inductive Flag : Type := Key | Keyable | Translatable | Virtual.

Definition flag_eqb (a b : Flag) : bool :=
  match a, b with
  | Key, Key | Keyable, Keyable | Translatable, Translatable
  | Virtual, Virtual => true
  | _, _ => false
  end.

(** Modelled from the spec: the field descriptor class is not among the
    sources.  A descriptor carries its name, its flags and the optional
    custom accessors; it is a plain object, neither false nor iterable. *)
Record Field : Type := {
  field_name : string;
  flags : list Flag;
  gettermethod : option (t -> result PyVal);
  settermethod : option setter
}.

Definition test_flag (f : Field) (flag : Flag) : bool :=
  existsb (flag_eqb flag) (flags f).

(** Which constructor [_parse_items] passes on to a collector:
    [cls(state=x)] or [cls(values=x)]. *)
Inductive Constructor : Type := FromState | FromValues.

(** Modelled from the spec: the collector class is not among the
    sources.  [get_collection] builds a collection from raw records;
    [collect_by_record] is the coroutine that collects for a record: it
    reads the record and returns the collection or raises. *)
Record Collector : Type := {
  get_collection : PyVal -> Constructor -> PyVal;
  collect_by_record : t -> result PyVal;
  coll_settermethod : option setter
}.

(** Modelled from the spec: the schema class is not among the sources.
    [fields] and [collectors] are kept in declaration order. *)
Record Schema : Type := {
  fields : list (string * Field);
  collectors : list (string * Collector);
  key_fields : list Field;
  default_values : gmap string PyVal
}.

(** Class attributes of a model type. *)
Record Class : Type := {
  __name__ : string;
  __schema__ : Schema;
  __store__ : Value;
  __view__ : bool
}.

(** A dictionary literal, in insertion order. *)
Abbreviation dict := (list (string * PyVal)).

(** Modelled from the spec: the store class is not among the sources.
    [get_records] returns raw field mappings, [save_record] the mapping
    of authoritative values to merge back, [delete_record] a count; a
    store reads the record it is given and does not write to it. *)
Record Store : Type := {
  get_records : Class -> Context.t -> result (list dict);
  save_record : t -> Context.t -> result dict;
  delete_record : t -> Context.t -> result PyVal
}.

(** The store objects of the program, by identity. *)
Abbreviation Stores := (gmap nat Store).

(** Resolution of a method of a store on the object [v]. *)
Definition as_store (stores : Stores) (method : string) (v : Value)
    : result Store :=
  match v with
  | VObject oid =>
      match stores !! oid with
      | Some s => Ok s
      | None => Err (AttributeError method)
      end
  | _ => Err (AttributeError method)
  end.

(** [d.setdefault(k, v)] *)
Definition setdefault (k : string) (v : Value) (d : Options) : Options :=
  match d !! k with
  | Some _ => d
  | None => <[k := v]> d
  end.

(** [d.update(other)] on a dictionary of the record. *)
Definition update_from (d : gmap string PyVal) (other : dict)
    : gmap string PyVal :=
  fold_left (fun acc kv => <[fst kv := snd kv]> acc) other d.

(** The loop of [_parse_items]. *)
Fixpoint parse_loop (schema : Schema) (constructor : Constructor)
    (items : dict) (fields_ collections : gmap string PyVal)
    : result (gmap string PyVal * gmap string PyVal) :=
  match items with
  | [] => Ok (fields_, collections)
  | (key, value) :: rest =>
      match assoc key (fields schema) with
      | Some field =>
          if negb (test_flag field Virtual)
          then parse_loop schema constructor rest
                 (<[key := value]> fields_) collections
          else parse_loop schema constructor rest fields_ collections
      | None =>
          match assoc key (collectors schema) with
          | None => Err (KeyError key)
          | Some collector =>
              parse_loop schema constructor rest fields_
                (<[key := get_collection collector value constructor]>
                   collections)
          end
      end
  end.

Definition _parse_items (cls : Class) (values : option dict)
    (constructor : Constructor)
    : result (gmap string PyVal * gmap string PyVal) :=
  match values with
  | None | Some [] => Ok (∅, ∅)
  | Some items => parse_loop (__schema__ cls) constructor items ∅ ∅
  end.

(** [Model.__init__]: the three dictionaries start empty;
    [d.update(other)] of two dictionaries of the record is the union
    that prefers [other]. *)
Definition __init__ (cls : Class) (values state : option dict)
    (context : Options) : result t :=
  let context := setdefault "store" (__store__ cls) context in
  do ctx <- make_context context;
  do '(fields_, collections) <- _parse_items cls state FromState;
  let state_ := fields_ ∪ default_values (__schema__ cls) in
  let collections_ := collections in
  do '(fields_, collections) <- _parse_items cls values FromValues;
  Ok {| context := ctx;
        __state := state_;
        __changes := fields_;
        __collections := collections ∪ collections_ |}.

(** [self.__state.get(key)], with [None] for a missing key. *)
Definition state_get (self : t) (key : string) : PyVal :=
  default PyNone (__state self !! key).

Definition with_changes (self : t) (changes : gmap string PyVal) : t :=
  {| context := context self;
     __state := __state self;
     __changes := changes;
     __collections := __collections self |}.

Definition with_collections (self : t) (collections : gmap string PyVal) : t :=
  {| context := context self;
     __state := __state self;
     __changes := __changes self;
     __collections := collections |}.

Definition is_none (v : PyVal) : bool :=
  match v with PyNone => true | _ => false end.

(** [get_value] *)
Definition get_value (cls : Class) (self : t) (key : string)
    (default_ : PyVal) : result PyVal :=
  match assoc key (fields (__schema__ cls)) with
  | None => Err (KeyError key)
  | Some field =>
      match gettermethod field with
      | Some gettermethod_ => gettermethod_ self
      | None =>
          match __changes self !! key with
          | Some v => Ok v
          | None => Ok (default default_ (__state self !! key))
          end
      end
  end.

(** [is_new_record] *)
Definition is_new_record (cls : Class) (self : t) : bool :=
  forallb (fun field => is_none (state_get self (field_name field)))
          (key_fields (__schema__ cls)).

(** [mark_loaded] *)
Definition mark_loaded (self : t) : t :=
  {| context := context self;
     __state := __changes self ∪ __state self;
     __changes := ∅;
     __collections := __collections self |}.

(** [reset] *)
Definition reset (self : t) : t := with_changes self ∅.

(** A dictionary is true when it is not empty. *)
Definition has_items (d : gmap string PyVal) : bool :=
  negb (bool_decide (d = ∅)).

(** [save]: returns the record as the call leaves it, with the value
    returned or the exception raised. *)
Definition save (stores : Stores) (cls : Class) (self : t)
    (context_ : Options) : t * result bool :=
  if __view__ cls then (self, Err (ReadOnly (__name__ cls)))
  else if has_items (__changes self) then
    let context_ := setdefault "context" (VContext (context self)) context_ in
    match make_context context_ with
    | Err e => (self, Err e)
    | Ok save_context =>
        match
          do store_ <- Context.store (context self);
          do backend <- as_store stores "save_record" store_;
          save_record backend self save_context
        with
        | Err e => (self, Err e)
        | Ok values =>
            let self := with_changes self (update_from (__changes self) values) in
            (mark_loaded self, Ok true)
        end
    end
  else (self, Ok false).

(** [delete] *)
Definition delete (stores : Stores) (cls : Class) (self : t)
    (context_ : Options) : t * result PyVal :=
  if __view__ cls then (self, Err (ReadOnly (__name__ cls)))
  else
    let context_ := setdefault "context" (VContext (context self)) context_ in
    (self,
     do delete_context <- make_context context_;
     do store_ <- Context.store (context self);
     do backend <- as_store stores "delete_record" store_;
     delete_record backend self delete_context).

(** [get_collection].  [collect_by_record] gives for a collector its
    coroutine of that name; [set] passes the one that the collectors
    carry. *)
Definition get_collection_ (cls : Class)
    (collect_by_record : Collector -> t -> result PyVal)
    (self : t) (key : string) : t * result PyVal :=
  match assoc key (collectors (__schema__ cls)) with
  | None => (self, Err (KeyError key))
  | Some collector =>
      match __collections self !! key with
      | Some collection => (self, Ok collection)
      | None =>
          match collect_by_record collector self with
          | Err e => (self, Err e)
          | Ok collection =>
              (with_collections self
                 (<[key := collection]> (__collections self)),
               Ok collection)
          end
      end
  end.

(** What a call of [get] comes to: a value, or the rest of the path
    handed to the [get] of the object the head resolves to, which is
    another object and answers for itself. *)
Inductive GetOutcome : Type :=
| Got (v : PyVal)
| Deferred (target : PyVal) (next_key : string).

(** [get]: any [KeyError] out of [get_value] sends the key to
    [get_collection]; the rest of a path goes to the [get] of what the
    head resolved to, which [None], an integer or a string lacks. *)
Definition get (cls : Class)
    (collect_by_record : Collector -> t -> result PyVal)
    (self : t) (key : string) (default_ : PyVal) : t * result GetOutcome :=
  let '(curr_key, next_key) := partition "." key in
  let '(self, result_) :=
    match get_value cls self curr_key default_ with
    | Err (KeyError _) => get_collection_ cls collect_by_record self curr_key
    | r => (self, r)
    end in
  match result_ with
  | Err e => (self, Err e)
  | Ok v =>
      if str_truthy next_key && negb (is_none v)
      then if is_opaque v
           then (self, Ok (Deferred v next_key))
           else (self, Err (AttributeError "get"))
      else (self, Ok (Got v))
  end.

(** What a call of [set] comes to: it returned a value, or it ends with
    the call [target.set(field_key, value)] on the object that the path
    before the last dot resolved to.  That call acts on another object,
    which answers for what it returns or raises. *)
Inductive SetOutcome : Type :=
| Returned (v : PyVal)
| Forwarded (target : GetOutcome) (field_key : string) (value : PyVal).

(** The object that a path resolved to has a [set] to call: it is the
    answer of another object's [get], or an object that is not [None],
    an integer or a string. *)
Definition has_set (target : GetOutcome) : bool :=
  match target with
  | Got v => is_opaque v
  | Deferred _ _ => true
  end.

(** [set] *)
Definition set (cls : Class) (self : t) (key : string) (value : PyVal)
    : t * result SetOutcome :=
  let '(target_key, field_key) := rpartition "." key in
  if negb (str_truthy target_key) then
    match assoc field_key (fields (__schema__ cls)) with
    | None =>
        match assoc field_key (collectors (__schema__ cls)) with
        | None => (self, Err (KeyError field_key))
        | Some coll =>
            let '(self, called) :=
              match coll_settermethod coll with
              | Some settermethod_ => settermethod_ self value
              | None => (self, Ok PyNone)
              end in
            match called with
            | Err e => (self, Err e)
            | Ok _ =>
                (with_collections self (<[key := value]> (__collections self)),
                 Ok (Returned PyNone))
            end
        end
    | Some field =>
        match settermethod field with
        | Some settermethod_ =>
            let '(self, called) := settermethod_ self value in
            (self, do v <- called; Ok (Returned v))
        | None =>
            if negb (py_is (state_get self field_key) value) then
              (with_changes self (<[field_key := value]> (__changes self)),
               Ok (Returned PyNone))
            else
              match __changes self !! field_key with
              | Some _ =>
                  (with_changes self (base.delete field_key (__changes self)),
                   Ok (Returned PyNone))
              | None => (self, Err (KeyError field_key))
              end
        end
    end
  else
    let '(self, resolved) :=
      get cls collect_by_record self target_key PyNone in
    match resolved with
    | Err e => (self, Err e)
    | Ok target =>
        if has_set target
        then (self, Ok (Forwarded target field_key value))
        else (self, Err (AttributeError "set"))
    end.

(** [update]: the [set] coroutines are wrapped in tasks that run in the
    order of the items; a coroutine that writes on the record itself
    has no suspension point and runs to its end (a custom setter is
    taken to do so too).  The outcomes are given item by item, in the
    order of the items; [gather] raises the first exception among them,
    where a forwarded call counts with what its target raises. *)
Fixpoint update (cls : Class) (self : t) (values : dict)
    : t * list (result SetOutcome) :=
  match values with
  | [] => (self, [])
  | (key, value) :: rest =>
      let '(self, outcome) := set cls self key value in
      let '(self, others) := update cls self rest in
      (self, outcome :: others)
  end.

(** The [key] argument of [fetch]: a list or tuple, or anything else. *)
Inductive KeyArg : Type :=
| Sequence (items : list PyVal)
| Scalar (k : PyVal).

(** What [fetch] returns: [None], a record, or the raw mapping. *)
Inductive Fetched : Type :=
| NoRecord
| Loaded (record : t)
| Raw (record_data : dict).

(** [Q(field.name) == key] *)
Definition key_equals (field : Field) (key : PyVal) : Pred :=
  Node (Query.__eq__ (Query.of_name (field_name field)) key).

(** The targets [i, field] of the loop over [key_fields] unpack every
    item of the sequence; the items are field descriptors, which are not
    iterable, so the unpacking raises [TypeError]. *)
Definition unpack_pair (item : Field) : result (nat * Field) :=
  Err TypeError.

(** [key[i]] *)
Definition key_item (key : list PyVal) (i : nat) : result PyVal :=
  match nth_error key i with
  | Some k => Ok k
  | None => Err IndexError
  end.

(** The loop [for i, field in key_fields: q &= Q(field.name) == key[i]] *)
Fixpoint composite_loop (key : list PyVal) (key_fields_ : list Field)
    (q : Pred) : result Pred :=
  match key_fields_ with
  | [] => Ok q
  | item :: rest =>
      do '(i, field) <- unpack_pair item;
      do k <- key_item key i;
      composite_loop key rest (__and__ q (Some (key_equals field k)))
  end.

(** The loop over [fields.values()] for a scalar key. *)
Fixpoint keyable_loop (key : PyVal) (fields_ : list (string * Field))
    (q : Pred) : Pred :=
  match fields_ with
  | [] => q
  | (_, field) :: rest =>
      keyable_loop key rest
        (if test_flag field Keyable
         then __or__ q (Some (key_equals field key))
         else q)
  end.

(** The filter that [fetch] builds from the key. *)
Definition key_query (cls : Class) (key : KeyArg) : result Pred :=
  let q := Node Query.empty in
  let key_fields_ := key_fields (__schema__ cls) in
  match key with
  | Sequence items =>
      if negb (Nat.eqb (List.length items) (List.length key_fields_))
      then Err (RuntimeError "Invalid key provided.")
      else composite_loop items key_fields_ q
  | Scalar k =>
      let q :=
        match key_fields_ with
        | [field] => __or__ q (Some (key_equals field k))
        | _ => q
        end in
      Ok (keyable_loop k (fields (__schema__ cls)) q)
  end.

(** [fetch] *)
Definition fetch (stores : Stores) (cls : Class) (key : KeyArg)
    (context_ : Options) : result Fetched :=
  do q <- key_query cls key;
  do other <- as_operand (default VNone (context_ !! "where"));
  let context_ := <["where" := VPred (__and__ q other)]> context_ in
  let context_ := <["limit" := VInt 1]> context_ in
  let context_ := setdefault "store" (__store__ cls) context_ in
  do fetch_context <- make_context context_;
  do store_ <- Context.store fetch_context;
  do backend <- as_store stores "get_records" store_;
  do records <- get_records backend cls fetch_context;
  match records with
  | [] => Ok NoRecord
  | record_data :: _ =>
      if value_eqb (returning fetch_context) (VReturnType Records)
      then do record <- __init__ cls None (Some record_data) ∅; Ok (Loaded record)
      else Ok (Raw record_data)
  end.

(** [local_changes]: for every pending key, the baseline value ([None]
    when there is none) and the pending one. *)
Definition local_changes (self : t) : gmap string (PyVal * PyVal) :=
  map_imap (fun key new => Some (state_get self key, new)) (__changes self).

(** [create]: [state] is the keyword of that name when the caller passes
    it among the context keywords, where the constructor binds it to
    its own parameter; [context_] is the rest of them. *)
Definition create (stores : Stores) (cls : Class) (values state : option dict)
    (context_ : Options) : result t :=
  if __view__ cls then Err (ReadOnly (__name__ cls))
  else
    do record <- __init__ cls values state context_;
    let '(record, saved) := save stores cls record ∅ in
    do _ <- saved;
    Ok record.

(** A model class with the tree of its subclasses, as
    [cls.__subclasses__()] gives them, level by level. *)
Inductive Subclass : Type :=
| Sub (cls : Class) (subclasses : list Subclass).

Definition class_of (h : Subclass) : Class :=
  match h with Sub cls _ => cls end.

Definition subclasses_of (h : Subclass) : list Subclass :=
  match h with Sub _ subclasses => subclasses end.

(** [find_model] *)
Fixpoint find_model (h : Subclass) (name : string) : option Subclass :=
  match h with
  | Sub _ subclasses =>
      (fix search (l : list Subclass) : option Subclass :=
         match l with
         | [] => None
         | sub_cls :: rest =>
             if String.eqb (__name__ (class_of sub_cls)) name
             then Some sub_cls
             else match find_model sub_cls name with
                  | Some found => Some found
                  | None => search rest
                  end
         end) subclasses
  end.

(** [d] is a subclass of [h], direct or not. *)
Inductive descends (h : Subclass) : Subclass -> Prop :=
| descends_direct d : In d (subclasses_of h) -> descends h d
| descends_deeper s d :
    In s (subclasses_of h) -> descends s d -> descends h d.

(** The schema declares [key], as a field or as a collector. *)
Definition declared (cls : Class) (key : string) : bool :=
  match assoc key (fields (__schema__ cls)),
        assoc key (collectors (__schema__ cls)) with
  | None, None => false
  | _, _ => true
  end.

(** The items of an optional dictionary argument. *)
Definition items_of (d : option dict) : dict := default [] d.

(** A key that [set] resolves on the record itself: it has no dot. *)
Definition direct (key : string) : Prop :=
  rpartition "." key = (EmptyString, key).

(** [key] names no field and no collector with a custom setter. *)
Definition plain_key (cls : Class) (key : string) : bool :=
  match assoc key (fields (__schema__ cls)) with
  | Some field =>
      match settermethod field with None => true | Some _ => false end
  | None =>
      match assoc key (collectors (__schema__ cls)) with
      | Some coll =>
          match coll_settermethod coll with None => true | Some _ => false end
      | None => true
      end
  end.

(** The model type declares no custom setter, on fields or collectors. *)
Definition no_setters (cls : Class) : bool :=
  forallb (fun kv => match settermethod (snd kv) with
                     | None => true
                     | Some _ => false
                     end)
          (fields (__schema__ cls)) &&
  forallb (fun kv => match coll_settermethod (snd kv) with
                     | None => true
                     | Some _ => false
                     end)
          (collectors (__schema__ cls)).

(** The invariant of pending changes, with the comparison that [set]
    makes: no pending value is the object that the baseline holds for
    the field ([None] when the baseline has no entry). *)
Definition pending_differs (self : t) : Prop :=
  forall f v, __changes self !! f = Some v ->
              py_is (state_get self f) v = false.

End Model.

(** ** Sample programs *)

Module Samples.

Import Context Model.

Definition bob : PyVal := PyObj 1 (DStr "bob").
Definition rob : PyVal := PyObj 2 (DStr "rob").
Definition one : PyVal := PyObj 3 (DInt 1).
Definition two : PyVal := PyObj 4 (DInt 2).

(** Another string object with the text of [bob]. *)
Definition bob_again : PyVal := PyObj 5 (DStr "bob").

(** [Field(...)] without custom accessors *)
Definition plain (n : string) (fl : list Flag) : Field :=
  {| field_name := n; flags := fl;
     gettermethod := None; settermethod := None |}.

Definition user_schema : Schema :=
  {| fields := [("id", plain "id" [Key]); ("name", plain "name" [])];
     collectors := [];
     key_fields := [plain "id" [Key]];
     default_values := ∅ |}.

(** [class User(Model)] with the fields [id] (key) and [name] *)
Definition User : Class :=
  {| __name__ := "User"; __schema__ := user_schema;
     __store__ := VObject 7; __view__ := false |}.

(** A custom setter that stores what it is given as the pending value
    of [name]. *)
Definition store_name : setter :=
  fun self value =>
    (with_changes self (<["name" := value]> (__changes self)), Ok PyNone).

(** A model whose field [name] has that setter. *)
Definition Tagged : Class :=
  {| __name__ := "Tagged";
     __schema__ :=
       {| fields := [("name",
                      {| field_name := "name"; flags := [];
                         gettermethod := None;
                         settermethod := Some store_name |})];
          collectors := [];
          key_fields := [];
          default_values := ∅ |};
     __store__ := VObject 7; __view__ := false |}.

(** The same schema behind a view. *)
Definition Report : Class :=
  {| __name__ := "Report"; __schema__ := user_schema;
     __store__ := VObject 7; __view__ := true |}.

(** The context that [make_context()] builds. *)
Definition plain_context : Context.t :=
  Context.__init__ VNone VNone VNone VNone VNone VNone VNone VNone
    (VReturnType Records) VNone VNone VNone VNone.

(** A context on which a store has been assigned. *)
Definition bound_context : Context.t :=
  {| distinct := VNone; Context.fields := VNone; locale := VNone;
     _limit := VNone; namespace := VNone; order := VNone; page := VNone;
     page_size := VNone; returning := VReturnType Records;
     scope := VDict []; _start := VNone; timezone := VNone;
     where_ := VNone; assigned := [("store", VObject 7)] |}.

(** A record loaded with the baseline [{"name": "bob"}], no pending
    change. *)
Definition loaded_bob : Model.t :=
  {| context := plain_context;
     __state := {["name" := bob]};
     __changes := ∅;
     __collections := ∅ |}.

(** The same record with a pending rename, bound to a store. *)
Definition renamed_bob : Model.t :=
  {| context := bound_context;
     __state := {["name" := bob]};
     __changes := {["name" := rob]};
     __collections := ∅ |}.

(** The record [User(values={'name': 'rob'})] *)
Definition fresh_rob : Model.t :=
  {| context := plain_context;
     __state := ∅;
     __changes := {["name" := rob]};
     __collections := ∅ |}.

(** A model with the collector [members], and a record of it with
    nothing cached. *)
Definition members_collector : Collector :=
  {| get_collection := fun records _ => records;
     collect_by_record := fun _ => Ok (PyObj 9 DOpaque);
     coll_settermethod := None |}.

Definition Team : Class :=
  {| __name__ := "Team";
     __schema__ := {| fields := [("id", plain "id" [Key])];
                      collectors := [("members", members_collector)];
                      key_fields := [plain "id" [Key]];
                      default_values := ∅ |};
     __store__ := VObject 7; __view__ := false |}.

Definition a_team : Model.t :=
  {| context := plain_context; __state := ∅; __changes := ∅;
     __collections := ∅ |}.

(** The collection that the collector of the sample answers with. *)
Definition the_members : PyVal := PyObj 9 DOpaque.

(** [class Admin(User)] under [User] and [Report], as subclasses of a
    common base. *)
Definition Admin : Class :=
  {| __name__ := "Admin"; __schema__ := user_schema;
     __store__ := VObject 7; __view__ := false |}.

Definition base_model : Class :=
  {| __name__ := "Model"; __schema__ := user_schema;
     __store__ := VNone; __view__ := false |}.

Definition hierarchy : Subclass :=
  Sub base_model [Sub User [Sub Admin []]; Sub Report []].

(** A backend that refuses every call. *)
Definition failing_store : Store :=
  {| get_records := fun _ _ => Err (StoreError 1);
     save_record := fun _ _ => Err (StoreError 1);
     delete_record := fun _ _ => Err (StoreError 1) |}.

Definition failing_stores : Stores := {[ 7%nat := failing_store ]}.

(** A backend that accepts every record and returns no value of its
    own. *)
Definition keeping_store : Store :=
  {| get_records := fun _ _ => Ok [];
     save_record := fun _ _ => Ok [];
     delete_record := fun _ _ => Ok PyNone |}.

Definition keeping_stores : Stores := {[ 7%nat := keeping_store ]}.

(** [Q('a') == 1] and [Q('b') == 2] *)
Definition a_is_1 : Pred := Node (Query.__eq__ (Query.of_name "a") one).
Definition b_is_2 : Pred := Node (Query.__eq__ (Query.of_name "b") two).

(** The context [make_context(where=Q('a') == 1)], the options that
    narrow it with [where=Q('b') == 2], and the merged context. *)
Definition filtered : Context.t :=
  Context.__init__ VNone VNone VNone VNone VNone VNone VNone VNone
    (VReturnType Records) VNone VNone VNone (VPred a_is_1).

Definition narrowing : Options :=
  <["where" := VPred b_is_2]> {["context" := VContext filtered]}.

Definition narrowed : Context.t :=
  Context.__init__ VNone VNone VNone VNone VNone VNone VNone VNone
    (VReturnType Records) VNone VNone VNone
    (VPred (Group And [b_is_2; a_is_1])).

(** The context [make_context(page=3, page_size=10)] *)
Definition paged : Context.t :=
  Context.__init__ VNone VNone VNone VNone VNone VNone (VInt 3) (VInt 10)
    (VReturnType Records) VNone VNone VNone VNone.

(** The context [make_context(scope={"x": 1, "y": 2})] *)
Definition scoped : Context.t :=
  Context.__init__ VNone VNone VNone VNone VNone VNone VNone VNone
    (VReturnType Records) (VDict [("x", VInt 1); ("y", VInt 2)])
    VNone VNone VNone.

(** The context [make_context(fields=['id', 'email'])] *)
Definition projected : Context.t :=
  Context.__init__ VNone (VList [VStr "id"; VStr "email"]) VNone VNone VNone
    VNone VNone VNone (VReturnType Records) VNone VNone VNone VNone.

(** Two null queries that differ in their value. *)
Definition null_plain : Pred := Node Query.empty.
Definition null_valued : Pred := Node (Query.__init__ "" "" Query.Is one).

(** [Q('id', model='User')] *)
Definition scoped_id : Query.t := Query.__init__ "id" "User" Query.Is PyNone.

End Samples.

(** ** Properties of the lookup context *)

Import Context.

Lemma make_context_inv (options : Options) (c : Context.t) :
  make_context options = Ok c ->
  forall base_context, base_context = default VNone (options !! "context") ->
  exists d f lo li n o p ps r sc st tz w,
    _merge_distinct options base_context = Ok d /\
    _merge_fields options base_context = Ok f /\
    _merge_locale options base_context = Ok lo /\
    _merge_limit options base_context = Ok li /\
    _merge_namespace options base_context = Ok n /\
    _merge_order options base_context = Ok o /\
    _merge_page options base_context = Ok p /\
    _merge_page_size options base_context = Ok ps /\
    _merge_returning options base_context = Ok r /\
    _merge_scope options base_context = Ok sc /\
    _merge_start options base_context = Ok st /\
    _merge_timezone options base_context = Ok tz /\
    _merge_query options base_context = Ok w /\
    c = Context.__init__ d f lo li n o p ps r sc st tz w.
Proof.
  unfold make_context. intros H ? ->. cbv zeta in H.
  set (base_context := default VNone (options !! "context")) in *.
  destruct (_merge_distinct options base_context) as [d|] eqn:E1; [|discriminate].
  destruct (_merge_fields options base_context) as [f|] eqn:E2; [|discriminate].
  destruct (_merge_locale options base_context) as [lo|] eqn:E3; [|discriminate].
  destruct (_merge_limit options base_context) as [li|] eqn:E4; [|discriminate].
  destruct (_merge_namespace options base_context) as [n|] eqn:E5; [|discriminate].
  destruct (_merge_order options base_context) as [o|] eqn:E6; [|discriminate].
  destruct (_merge_page options base_context) as [p|] eqn:E7; [|discriminate].
  destruct (_merge_page_size options base_context) as [ps|] eqn:E8; [|discriminate].
  destruct (_merge_returning options base_context) as [r|] eqn:E9; [|discriminate].
  destruct (_merge_scope options base_context) as [sc|] eqn:E10; [|discriminate].
  destruct (_merge_start options base_context) as [st|] eqn:E11; [|discriminate].
  destruct (_merge_timezone options base_context) as [tz|] eqn:E12; [|discriminate].
  destruct (_merge_query options base_context) as [w|] eqn:E13; [|discriminate].
  simpl in H. injection H as <-.
  exists d, f, lo, li, n, o, p, ps, r, sc, st, tz, w. repeat split; reflexivity.
Qed.


(** A context fresh from [make_context] has no assigned attribute. *)
Lemma make_context_assigned (options : Options) (c : Context.t) :
  make_context options = Ok c -> assigned c = [].
Proof.
  intros H. eapply make_context_inv in H; [|reflexivity].
  destruct H as (d & f & lo & li & n & o & p & ps & r & sc & st & tz & w & H).
  destruct H as (_ & _ & _ & _ & _ & _ & _ & _ & _ & _ & _ & _ & _ & ->).
  reflexivity.
Qed.

(** Two option dictionaries that agree on the keys [make_context] reads
    give the same result. *)
Lemma make_context_agree (o1 o2 : Options) :
  (forall k, k ∈ recognized -> o1 !! k = o2 !! k) ->
  make_context o1 = make_context o2.
Proof.
  intros H.
  assert (Hk : Forall (fun k => o1 !! k = o2 !! k) recognized)
    by (apply Forall_forall; exact H).
  unfold recognized in Hk.
  repeat match goal with
         | Hf : Forall _ (_ :: _) |- _ =>
             let E := fresh "E" in
             apply Forall_cons in Hf; destruct Hf as [E Hf]
         end.
  unfold make_context, _merge_distinct, _merge_fields, _merge_locale,
    _merge_limit, _merge_namespace, _merge_order, _merge_page,
    _merge_page_size, _merge_returning, _merge_scope, _merge_start,
    _merge_timezone, _merge_query.
  repeat match goal with E : o1 !! _ = o2 !! _ |- _ => rewrite E; clear E end.
  reflexivity.
Qed.

Lemma not_recognized_ne (k k' : string) :
  k ∉ recognized -> k' ∈ recognized -> k ≠ k'.
Proof. intros Hk Hk' ->. exact (Hk Hk'). Qed.

(** C9 (merge identity element): [make_context()] with no option and no
    base context returns a context whose optional attributes are all
    unset ([None]; an unset [scope] is held as the empty dictionary, as
    [Context.__init__] stores it), whose [limit] and [start] properties
    read [None], and whose [returning] is [Records]. *)
Theorem make_context_identity :
  exists c,
    make_context ∅ = Ok c /\
    distinct c = VNone /\ fields c = VNone /\ locale c = VNone /\
    _limit c = VNone /\ get_limit c = VNone /\ namespace c = VNone /\
    order c = VNone /\ page c = VNone /\ page_size c = VNone /\
    scope c = VDict [] /\ _start c = VNone /\ get_start c = Ok VNone /\
    timezone c = VNone /\ where_ c = VNone /\ assigned c = [] /\
    returning c = VReturnType Records.
Proof.
  eexists. split; [reflexivity|]. repeat split; reflexivity.
Qed.

(** C10 (unrecognized options are discarded): an option key other than
    the thirteen recognized ones and [context] has no effect on what
    [make_context] returns, whether it is added, replaced or removed;
    the returned context carries no attribute for it, so that reading
    [store] from it raises [AttributeError]. *)
Theorem unrecognized_option_discarded (options : Options) (k : string)
    (v : Value) :
  k ∉ recognized ->
  make_context (<[k := v]> options) = make_context options /\
  make_context (base.delete k options) = make_context options /\
  (forall c, make_context (<[k := v]> options) = Ok c ->
             assigned c = [] /\
             Context.store c = Err (AttributeError "store")).
Proof.
  intros Hk. split; [|split].
  - apply make_context_agree. intros k' Hk'.
    apply lookup_insert_ne. exact (not_recognized_ne _ _ Hk Hk').
  - apply make_context_agree. intros k' Hk'.
    apply lookup_delete_ne. exact (not_recognized_ne _ _ Hk Hk').
  - intros c Hc. apply make_context_assigned in Hc.
    split; [exact Hc|]. unfold Context.store. rewrite Hc. reflexivity.
Qed.

(** The [store] option that [Model.__init__], [fetch] and [select] add
    is such a key. *)
Lemma store_option_discarded :
  make_context (<["store" := VObject 7]> ∅) = make_context ∅ /\
  make_context (base.delete "store" ∅) = make_context ∅ /\
  (forall c, make_context (<["store" := VObject 7]> ∅) = Ok c ->
             assigned c = [] /\
             Context.store c = Err (AttributeError "store")).
Proof.
  apply (unrecognized_option_discarded ∅ "store" (VObject 7)).
  unfold recognized. intros H.
  repeat (apply elem_of_cons in H; destruct H as [H|H]; [discriminate H|]).
  inversion H.
Defined.

(** ** Properties of the query algebra *)

(** What [clone] keeps and what it resets: the name is kept, the model
    scope takes the constructor default. *)
Lemma clone_keeps_name (q : Query.t) (o : option Query.QueryOp)
    (v : option PyVal) :
  Query.name (Query.clone q {| Query.o_name := None; Query.o_model := None;
                               Query.o_op := o; Query.o_value := v |})
  = Query.name q.
Proof. reflexivity. Qed.

Lemma clone_resets_model (q : Query.t) (o : option Query.QueryOp)
    (v : option PyVal) :
  Query.model (Query.clone q {| Query.o_name := None; Query.o_model := None;
                                Query.o_op := o; Query.o_value := v |})
  = "".
Proof. reflexivity. Qed.

(** [==] and [!=] set the operator and the value and keep the name. *)
Lemma eq_helper_sets (q : Query.t) (v : PyVal) :
  Query.op (Query.__eq__ q v) = Query.Is /\
  Query.value (Query.__eq__ q v) = v /\
  Query.name (Query.__eq__ q v) = Query.name q /\
  Query.op (Query.__ne__ q v) = Query.IsNot /\
  Query.value (Query.__ne__ q v) = v /\
  Query.name (Query.__ne__ q v) = Query.name q.
Proof. repeat split; reflexivity. Qed.

(** The helpers keep the model scope only when it is empty. *)
Lemma eq_helper_keeps_model_iff (q : Query.t) (v : PyVal) :
  Query.model (Query.__eq__ q v) = Query.model q <-> Query.model q = "".
Proof.
  unfold Query.__eq__. rewrite clone_resets_model. split; congruence.
Qed.

(** C6 (equality-helper cloning), at [Q('id', model='User') == 1] and
    [!= 1]: the new node has the operator, the value and the name, and
    its model scope is the empty string, not the receiver's ['User']. *)
Theorem eq_helper_drops_model_scope :
  Query.model Samples.scoped_id = "User" /\
  Query.__eq__ Samples.scoped_id Samples.one
  = Query.__init__ "id" "" Query.Is Samples.one /\
  Query.__ne__ Samples.scoped_id Samples.one
  = Query.__init__ "id" "" Query.IsNot Samples.one /\
  Query.model (Query.__eq__ Samples.scoped_id Samples.one)
  <> Query.model Samples.scoped_id /\
  Query.model (Query.__ne__ Samples.scoped_id Samples.one)
  <> Query.model Samples.scoped_id.
Proof. repeat split; try reflexivity; discriminate. Qed.

(** A null right operand, or none, returns the left operand. *)
Lemma make_query_group_null_r (p n : Pred) (op : QueryGroupOp) :
  is_null n = true ->
  make_query_group p (Some n) op = p /\ make_query_group p None op = p.
Proof. intros Hn. unfold make_query_group. rewrite Hn. split; reflexivity. Qed.

(** A null left operand returns a right operand that is not null. *)
Lemma make_query_group_null_l (p n : Pred) (op : QueryGroupOp) :
  is_null n = true -> is_null p = false ->
  make_query_group n (Some p) op = p.
Proof. intros Hn Hp. unfold make_query_group. rewrite Hp, Hn. reflexivity. Qed.







(** ** The predicate of a merged context *)



(** The spec's example: base [a == 1] merged with [b == 2] is the group
    [(b == 2) AND (a == 1)]. *)
Example where_conjunction :
  where_ Samples.narrowed = VPred (Group And [Samples.b_is_2; Samples.a_is_1]).
Proof. reflexivity. Qed.

(** C5 (null-predicate identity), amended: for every predicate [p] that
    is not itself null, combining [p] with a null predicate [n] by AND
    or by OR, with [n] on the right or on the left, returns [p]. *)
Theorem null_predicate_identity (p n : Pred) :
  is_null n = true -> is_null p = false ->
  __and__ p (Some n) = p /\ __and__ n (Some p) = p /\
  __or__ p (Some n) = p /\ __or__ n (Some p) = p.
Proof.
  intros Hn Hp. unfold __and__, __or__.
  repeat split;
    first [ apply make_query_group_null_r; exact Hn
          | apply make_query_group_null_l; assumption ].
Qed.

Lemma null_predicate_identity_witness :
  __and__ Samples.a_is_1 (Some Samples.null_plain) = Samples.a_is_1 /\
  __and__ Samples.null_plain (Some Samples.a_is_1) = Samples.a_is_1 /\
  __or__ Samples.a_is_1 (Some Samples.null_plain) = Samples.a_is_1 /\
  __or__ Samples.null_plain (Some Samples.a_is_1) = Samples.a_is_1.
Proof.
  apply (null_predicate_identity Samples.a_is_1 Samples.null_plain);
    reflexivity.
Defined.

(** C5 as stated fails when [p] is null as well: the null query [Query()]
    combined on the left with the null query [Query(value=1)] does not
    return the latter. *)
Lemma null_predicate_identity_fails_on_null :
  is_null Samples.null_plain = true /\
  __and__ Samples.null_plain (Some Samples.null_valued) <> Samples.null_valued.
Proof. split; [reflexivity | discriminate]. Qed.

(** ** Properties of the record state machine *)

Import Model.

Lemma py_is_refl (v : PyVal) : py_is v v = true.
Proof. destruct v; simpl; [reflexivity | apply Nat.eqb_refl]. Qed.

Lemma has_items_true (d : gmap string PyVal) : has_items d = true <-> d ≠ ∅.
Proof.
  unfold has_items. rewrite negb_true_iff, bool_decide_eq_false. reflexivity.
Qed.

Lemma has_items_false (d : gmap string PyVal) : has_items d = false <-> d = ∅.
Proof.
  unfold has_items. rewrite negb_false_iff, bool_decide_eq_true. reflexivity.
Qed.

Lemma with_changes_same (self : Model.t) : with_changes self (__changes self) = self.
Proof. destruct self; reflexivity. Qed.

(** [set] on a field of the record that has no custom setter. *)
Lemma set_plain_field (cls : Class) (self : Model.t) (key : string)
    (value : PyVal) (field : Field) :
  direct key ->
  assoc key (Model.fields (__schema__ cls)) = Some field ->
  settermethod field = None ->
  Model.set cls self key value =
    if py_is (state_get self key) value then
      match __changes self !! key with
      | Some _ => (with_changes self (base.delete key (__changes self)),
                   Ok (Returned PyNone))
      | None => (self, Err (KeyError key))
      end
    else (with_changes self (<[key := value]> (__changes self)),
          Ok (Returned PyNone)).
Proof.
  intros Hd Hf Hs. unfold Model.set. rewrite Hd. simpl. rewrite Hf, Hs.
  destruct (py_is (state_get self key) value); reflexivity.
Qed.

(** Writing the baseline object on a field that has no pending entry
    raises [KeyError] from [self.__changes.pop(field_key)]. *)
Lemma set_baseline_clean_raises (cls : Class) (self : Model.t) (key : string)
    (v : PyVal) (field : Field) :
  direct key ->
  assoc key (Model.fields (__schema__ cls)) = Some field ->
  settermethod field = None ->
  __state self !! key = Some v ->
  __changes self !! key = None ->
  Model.set cls self key v = (self, Err (KeyError key)).
Proof.
  intros Hd Hf Hs Hv Hc. rewrite (set_plain_field _ _ _ _ _ Hd Hf Hs).
  unfold state_get. rewrite Hv. simpl. rewrite py_is_refl, Hc. reflexivity.
Qed.

(** Writing another object and then the baseline object again restores
    the pending changes. *)
Lemma set_round_trip (cls : Class) (self : Model.t) (key : string)
    (v w : PyVal) (field : Field) :
  direct key ->
  assoc key (Model.fields (__schema__ cls)) = Some field ->
  settermethod field = None ->
  __state self !! key = Some v ->
  __changes self !! key = None ->
  py_is v w = false ->
  Model.set cls (fst (Model.set cls self key w)) key v
  = (self, Ok (Returned PyNone)).
Proof.
  intros Hd Hf Hs Hv Hc Hw.
  rewrite (set_plain_field cls self _ w _ Hd Hf Hs).
  unfold state_get at 1. rewrite Hv. simpl. rewrite Hw. simpl.
  rewrite (set_plain_field _ _ _ _ _ Hd Hf Hs).
  unfold state_get. simpl. rewrite Hv. simpl. rewrite py_is_refl.
  rewrite lookup_insert_eq. rewrite delete_insert_eq, (delete_id _ _ Hc).
  destruct self; reflexivity.
Qed.

(** C1 (change-tracking round trip), at the record loaded with the
    baseline [{"name": "bob"}] and no pending change: [set("name", "bob")]
    with the baseline object raises [KeyError('name')] and leaves the
    record as it was; [set("name", "rob")] followed by
    [set("name", "bob")] returns and leaves no pending change. *)
Theorem set_baseline_value_raises :
  Model.set Samples.User Samples.loaded_bob "name" Samples.bob
  = (Samples.loaded_bob, Err (KeyError "name")) /\
  Model.set Samples.User
    (fst (Model.set Samples.User Samples.loaded_bob "name" Samples.rob))
    "name" Samples.bob
  = (Samples.loaded_bob, Ok (Returned PyNone)).
Proof.
  split.
  - apply (set_baseline_clean_raises _ _ _ _ (Samples.plain "name" []));
      reflexivity.
  - apply (set_round_trip _ _ _ _ _ (Samples.plain "name" [])); reflexivity.
Qed.

(** C3 (save precedence), amended: [save] on a view fails with
    [ReadOnly] whether or not changes are pending; on a model that is
    not a view and has no pending change it returns [False] and leaves
    the record as it was. *)
Theorem save_precedence (stores : Stores) (cls : Class) (self : Model.t)
    (options : Options) :
  (__view__ cls = true ->
   save stores cls self options = (self, Err (ReadOnly (__name__ cls)))) /\
  (__view__ cls = false -> __changes self = ∅ ->
   save stores cls self options = (self, Ok false)).
Proof.
  unfold save. split.
  - intros ->. reflexivity.
  - intros -> Hc. apply has_items_false in Hc. rewrite Hc. reflexivity.
Qed.

Lemma save_precedence_witness :
  save ∅ Samples.Report Samples.renamed_bob ∅
  = (Samples.renamed_bob, Err (ReadOnly "Report")) /\
  save ∅ Samples.User Samples.loaded_bob ∅ = (Samples.loaded_bob, Ok false).
Proof.
  split.
  - apply (proj1 (save_precedence ∅ Samples.Report Samples.renamed_bob ∅)).
    reflexivity.
  - apply (proj2 (save_precedence ∅ Samples.User Samples.loaded_bob ∅));
      reflexivity.
Defined.

(** C3 as stated fails on a view: with no pending change [save] raises
    [ReadOnly] instead of returning [False]. *)
Lemma save_clean_view_raises :
  __changes Samples.loaded_bob = ∅ /\
  __view__ Samples.Report = true /\
  save ∅ Samples.Report Samples.loaded_bob ∅
  = (Samples.loaded_bob, Err (ReadOnly "Report")) /\
  snd (save ∅ Samples.Report Samples.loaded_bob ∅) <> Ok false.
Proof. repeat split; try reflexivity. discriminate. Qed.

(** C2 (save failure atomicity): on a model that is not a view, for a
    record with pending changes, (1) when the store's [save_record]
    raises, [save] raises the same exception and returns the record as
    it was; (2) whenever [save] raises, the record, and with it the
    pending changes and the baseline, is as it was before the call;
    (3) [save] returns only [True], and then the store's [save_record]
    has returned values and the record is [mark_loaded] applied to the
    pending changes updated with these values. *)
Theorem save_failure_atomic (stores : Stores) (cls : Class) (self : Model.t)
    (options : Options) :
  __view__ cls = false ->
  has_items (__changes self) = true ->
  (forall save_context store_ backend e,
      make_context (setdefault "context" (VContext (context self)) options)
        = Ok save_context ->
      Context.store (context self) = Ok store_ ->
      as_store stores "save_record" store_ = Ok backend ->
      save_record backend self save_context = Err e ->
      save stores cls self options = (self, Err e)) /\
  (forall after e,
      save stores cls self options = (after, Err e) -> after = self) /\
  (forall after b,
      save stores cls self options = (after, Ok b) ->
      b = true /\
      exists save_context store_ backend values,
        make_context (setdefault "context" (VContext (context self)) options)
          = Ok save_context /\
        Context.store (context self) = Ok store_ /\
        as_store stores "save_record" store_ = Ok backend /\
        save_record backend self save_context = Ok values /\
        after = mark_loaded
                  (with_changes self (update_from (__changes self) values))).
Proof.
  intros Hview Hdirty. unfold save. rewrite Hview, Hdirty.
  split; [|split].
  - intros save_context store_ backend e -> -> Hb Hs. simpl.
    rewrite Hb. simpl. rewrite Hs. reflexivity.
  - intros after e.
    destruct (make_context _) as [save_context|e1]; [|congruence].
    destruct (Context.store (context self)) as [store_|e2]; simpl; [|congruence].
    destruct (as_store stores "save_record" store_) as [backend|e3]; simpl;
      [|congruence].
    destruct (save_record backend self save_context); congruence.
  - intros after b.
    destruct (make_context _) as [save_context|e1]; [|discriminate].
    destruct (Context.store (context self)) as [store_|e2]; simpl; [|discriminate].
    destruct (as_store stores "save_record" store_) as [backend|e3] eqn:Hb;
      simpl; [|discriminate].
    destruct (save_record backend self save_context) as [values|e4] eqn:Hs;
      [|discriminate].
    intros H. injection H as <- <-. split; [reflexivity|].
    exists save_context, store_, backend, values. repeat split; assumption.
Qed.

Lemma save_failure_atomic_witness :
  save Samples.failing_stores Samples.User Samples.renamed_bob ∅
  = (Samples.renamed_bob, Err (StoreError 1)).
Proof.
  eapply (proj1 (save_failure_atomic Samples.failing_stores Samples.User
                   Samples.renamed_bob ∅ eq_refl eq_refl));
    reflexivity.
Defined.

(** A record as [Model.__init__] builds it has no store on its context:
    with pending changes its [save] raises [AttributeError] before any
    store is called. *)
Lemma save_unbound_raises (stores : Stores) (cls : Class) (self : Model.t)
    (options : Options) (save_context : Context.t) :
  __view__ cls = false ->
  has_items (__changes self) = true ->
  assigned (context self) = [] ->
  make_context (setdefault "context" (VContext (context self)) options)
    = Ok save_context ->
  save stores cls self options = (self, Err (AttributeError "store")).
Proof.
  intros Hview Hdirty Ha Hc. unfold save. rewrite Hview, Hdirty, Hc.
  unfold Context.store. rewrite Ha. reflexivity.
Qed.

Lemma init_context_unbound (cls : Class) (values state : option dict)
    (options : Options) (self : Model.t) :
  Model.__init__ cls values state options = Ok self ->
  assigned (context self) = [].
Proof.
  unfold Model.__init__. intros H.
  destruct (make_context _) as [ctx|] eqn:Hc; [|discriminate].
  simpl in H.
  destruct (_parse_items cls state FromState) as [[f1 c1]|]; [|discriminate].
  simpl in H.
  destruct (_parse_items cls values FromValues) as [[f2 c2]|]; [|discriminate].
  simpl in H. injection H as <-. simpl.
  exact (make_context_assigned _ _ Hc).
Qed.

(** ** [fetch] *)

(** A key sequence of the wrong length is refused. *)
Lemma fetch_arity_mismatch (stores : Stores) (cls : Class)
    (items : list PyVal) (options : Options) :
  List.length items ≠ List.length (key_fields (__schema__ cls)) ->
  fetch stores cls (Sequence items) options
  = Err (RuntimeError "Invalid key provided.").
Proof.
  intros H. unfold fetch, key_query.
  apply Nat.eqb_neq in H. rewrite H. reflexivity.
Qed.

(** A key sequence of the right length, for a model with key fields,
    stops at the first turn of the loop. *)
Lemma fetch_composite_raises (stores : Stores) (cls : Class)
    (items : list PyVal) (options : Options) :
  List.length items = List.length (key_fields (__schema__ cls)) ->
  key_fields (__schema__ cls) ≠ [] ->
  fetch stores cls (Sequence items) options = Err TypeError.
Proof.
  intros H Hk. unfold fetch, key_query.
  apply Nat.eqb_eq in H. rewrite H. simpl.
  destruct (key_fields (__schema__ cls)); [congruence|reflexivity].
Qed.

(** [fetch] never returns: the context it builds has no [store]. *)
Lemma fetch_never_returns (stores : Stores) (cls : Class) (key : KeyArg)
    (options : Options) (r : Fetched) :
  fetch stores cls key options ≠ Ok r.
Proof.
  unfold fetch.
  destruct (key_query cls key) as [q|]; [|discriminate]. simpl.
  destruct (as_operand _) as [other|]; [|discriminate]. simpl.
  destruct (make_context _) as [fetch_context|] eqn:Hc; [|discriminate].
  simpl. unfold Context.store.
  rewrite (make_context_assigned _ _ Hc). discriminate.
Qed.

(** C7 (composite-key fetch), at the model [User] with the one key field
    [id]: the key [[1, 2]] of the wrong length is refused with the
    [RuntimeError] for an invalid key; the key [[1]] of the right length
    raises [TypeError] in the loop that should pair the key fields with
    the key, so that no filter is built and no store is asked. *)
Theorem fetch_composite_key_raises :
  fetch Samples.failing_stores Samples.User
    (Sequence [Samples.one; Samples.two]) ∅
  = Err (RuntimeError "Invalid key provided.") /\
  key_query Samples.User (Sequence [Samples.one]) = Err TypeError /\
  fetch Samples.failing_stores Samples.User (Sequence [Samples.one]) ∅
  = Err TypeError.
Proof. repeat split; reflexivity. Qed.

(** ** Helpers on writes *)

Lemma assoc_forallb {A} (Q : A -> bool) (k : string) (x : A)
    (l : list (string * A)) :
  forallb (fun kv => Q (snd kv)) l = true ->
  assoc k l = Some x -> Q x = true.
Proof.
  induction l as [|[k' y] l IH]; simpl; [discriminate|].
  intros H. apply andb_true_iff in H. destruct H as [Hy Hl].
  destruct (String.eqb k k'); [|auto].
  intros E. injection E as <-. exact Hy.
Qed.

Lemma update_cons (cls : Class) (self : Model.t) (key : string)
    (value : PyVal) (rest : dict) :
  fst (update cls self ((key, value) :: rest))
  = fst (update cls (fst (Model.set cls self key value)) rest).
Proof.
  simpl. destruct (Model.set cls self key value) as [self1 outcome]. simpl.
  destruct (update cls self1 rest). reflexivity.
Qed.

Lemma no_changes_invariant (self : Model.t) :
  __changes self = ∅ -> pending_differs self.
Proof. intros H f v. rewrite H, lookup_empty. discriminate. Qed.

Lemma init_without_values (cls : Class) (state : option dict)
    (options : Options) (self : Model.t) :
  Model.__init__ cls None state options = Ok self -> __changes self = ∅.
Proof.
  unfold Model.__init__. intros H.
  destruct (make_context _) as [ctx|]; [|discriminate]. simpl in H.
  destruct (_parse_items cls state FromState) as [[f1 c1]|]; [|discriminate].
  simpl in H. injection H as <-. reflexivity.
Qed.

(** No combinator at all returns the other operand for every pair of
    null predicates: two different null predicates would each have to be
    the result. *)
Lemma null_identity_needs_non_null (combine : Pred -> Pred -> Pred) :
  ~ (forall p n, is_null n = true -> combine p n = p /\ combine n p = p).
Proof.
  intros H.
  destruct (H Samples.null_valued Samples.null_plain eq_refl) as [_ H1].
  destruct (H Samples.null_plain Samples.null_valued eq_refl) as [H2 _].
  rewrite H1 in H2. discriminate H2.
Qed.

(** * Further properties of the lookup context *)

(** The context rebuilt from the attributes of [c], as a merge with no
    option but [context=c] does. *)
Lemma make_context_of_context (c : Context.t) :
  make_context {["context" := VContext c]}
  = Ok (Context.__init__ (distinct c) (Context.fields c) (locale c)
          (_limit c) (namespace c) (order c) (page c) (page_size c)
          (returning c) (scope c) (_start c) (timezone c) (where_ c)).
Proof.
  unfold make_context, _merge_distinct, _merge_fields, _merge_locale,
    _merge_limit, _merge_namespace, _merge_order, _merge_page,
    _merge_page_size, _merge_returning, _merge_scope, _merge_start,
    _merge_timezone, _merge_query.
  rewrite lookup_singleton_eq.
  rewrite !lookup_singleton_ne by discriminate.
  reflexivity.
Qed.

Lemma py_or_empty_idem (v : Value) :
  py_or (py_or v (VDict [])) (VDict []) = py_or v (VDict []).
Proof. unfold py_or. destruct (truthy v) eqn:E; [rewrite E|]; reflexivity. Qed.

(** X1: a context that [make_context] has returned is a right identity
    of the merge: merging no option onto it returns it. *)
Theorem make_context_base_identity (options : Options) (c : Context.t) :
  make_context options = Ok c ->
  make_context {["context" := VContext c]} = Ok c.
Proof.
  intros H. rewrite make_context_of_context.
  eapply make_context_inv in H; [|reflexivity].
  destruct H as (d & f & lo & li & n & o & p & ps & r & sc & st & tz & w & H).
  destruct H as (_ & _ & _ & _ & _ & _ & _ & _ & _ & _ & _ & _ & _ & ->).
  unfold Context.__init__. simpl. rewrite py_or_empty_idem. reflexivity.
Qed.

Lemma make_context_base_identity_witness :
  make_context {["context" := VContext Samples.narrowed]} = Ok Samples.narrowed.
Proof.
  apply (make_context_base_identity Samples.narrowing Samples.narrowed).
  reflexivity.
Defined.

(** X2: an option that is given wins over the base context, also when
    its value is [None]: for the keys that are handed through, and for
    [where=None], the attribute of the result is the given value. *)
Theorem explicit_option_wins (options : Options) (c : Context.t) (v : Value) :
  make_context options = Ok c ->
  (options !! "locale" = Some v -> locale c = v) /\
  (options !! "limit" = Some v -> _limit c = v) /\
  (options !! "namespace" = Some v -> namespace c = v) /\
  (options !! "page" = Some v -> page c = v) /\
  (options !! "page_size" = Some v -> page_size c = v) /\
  (options !! "returning" = Some v -> returning c = v) /\
  (options !! "start" = Some v -> _start c = v) /\
  (options !! "timezone" = Some v -> timezone c = v) /\
  (options !! "where" = Some VNone -> where_ c = VNone).
Proof.
  intros H. eapply make_context_inv in H; [|reflexivity].
  destruct H as (d & f & lo & li & n & o & p & ps & r & sc & st & tz & w & H).
  destruct H as (_ & _ & Hlo & Hli & Hn & _ & Hp & Hps & Hr & _ & Hst & Htz
                 & Hw & ->).
  unfold _merge_locale in Hlo. unfold _merge_limit in Hli.
  unfold _merge_namespace in Hn. unfold _merge_page in Hp.
  unfold _merge_page_size in Hps. unfold _merge_returning in Hr.
  unfold _merge_start in Hst. unfold _merge_timezone in Htz.
  unfold _merge_query in Hw.
  repeat split; intros E; simpl.
  - rewrite E in Hlo. congruence.
  - rewrite E in Hli. congruence.
  - rewrite E in Hn. congruence.
  - rewrite E in Hp. congruence.
  - rewrite E in Hps. congruence.
  - rewrite E in Hr. congruence.
  - rewrite E in Hst. congruence.
  - rewrite E in Htz. congruence.
  - rewrite E in Hw. simpl in Hw. congruence.
Qed.

(** [make_context(limit=None, context=c)] for the context [c] that has
    the limit 10 *)
Lemma explicit_option_wins_witness :
  _limit (Context.set_limit Samples.plain_context VNone) = VNone.
Proof.
  assert (H : make_context
                (<["limit" := VNone]>
                   {["context" := VContext (Context.set_limit
                                              Samples.plain_context
                                              (VInt 10))]})
              = Ok (Context.set_limit Samples.plain_context VNone))
    by reflexivity.
  destruct (explicit_option_wins _ _ VNone H) as (_ & Hl & _).
  apply Hl. reflexivity.
Defined.

(** X3: an explicit [limit] does not change the effective limit when the
    base context has a page size and none is given: [limit] reads the
    inherited page size. *)
Theorem limit_shadowed_by_page_size (options : Options) (base c : Context.t)
    (l : Value) :
  make_context options = Ok c ->
  options !! "context" = Some (VContext base) ->
  options !! "limit" = Some l ->
  options !! "page_size" = None ->
  truthy (page_size base) = true ->
  _limit c = l /\ get_limit c = page_size base.
Proof.
  intros H Hc Hl Hps Ht. eapply make_context_inv in H; [|reflexivity].
  destruct H as (d & f & lo & li & n & o & p & ps & r & sc & st & tz & w & H).
  destruct H as (_ & _ & _ & Hli & _ & _ & _ & Hpsz & _ & _ & _ & _ & _ & ->).
  unfold _merge_limit in Hli. rewrite Hl in Hli.
  unfold _merge_page_size, inherit in Hpsz. rewrite Hps, Hc in Hpsz.
  simpl in Hpsz. injection Hli as <-. injection Hpsz as <-.
  unfold get_limit, py_or. simpl. rewrite Ht. split; reflexivity.
Qed.

Lemma limit_shadowed_by_page_size_witness :
  exists c,
    make_context (<["limit" := VInt 5]>
                    {["context" := VContext Samples.paged]}) = Ok c /\
    _limit c = VInt 5 /\ get_limit c = VInt 10.
Proof.
  eexists. split; [reflexivity|].
  eapply (limit_shadowed_by_page_size
            (<["limit" := VInt 5]> {["context" := VContext Samples.paged]})
            Samples.paged); reflexivity.
Defined.

(** X4: without a base context [make_context] raises nothing, whatever
    the options hold: every option is taken as it is, but for the
    string forms of [distinct], [fields] and [order]. *)
Theorem make_context_without_base (options : Options) :
  truthy (default VNone (options !! "context")) = false ->
  exists c, make_context options = Ok c /\
            _limit c = default VNone (options !! "limit") /\
            where_ c = default VNone (options !! "where") /\
            returning c = default (VReturnType Records) (options !! "returning").
Proof.
  intros Hb. unfold make_context.
  set (base := default VNone (options !! "context")) in *.
  assert (Hi : forall n a o, inherit base n a o = Ok o)
    by (intros; unfold inherit; rewrite Hb; reflexivity).
  assert (E1 : exists v, _merge_distinct options base = Ok v).
  { unfold _merge_distinct.
    destruct (options !! "distinct") as [[]|]; rewrite ?Hi; eauto. }
  assert (E2 : exists v, _merge_fields options base = Ok v).
  { unfold _merge_fields.
    destruct (options !! "fields"); rewrite ?Hi, ?Hb, ?andb_false_r; eauto. }
  assert (E6 : exists v, _merge_order options base = Ok v).
  { unfold _merge_order.
    destruct (options !! "order") as [[]|]; rewrite ?Hi; eauto. }
  assert (E10 : exists v, _merge_scope options base = Ok v).
  { unfold _merge_scope.
    destruct (options !! "scope"); rewrite ?Hi, ?Hb, ?andb_false_r; eauto. }
  destruct E1 as [d ->], E2 as [f ->], E6 as [o E6], E10 as [sc E10].
  unfold _merge_locale, _merge_limit, _merge_namespace, _merge_page,
    _merge_page_size, _merge_returning, _merge_start, _merge_timezone,
    _merge_query.
  rewrite E6, E10, !Hi.
  destruct (options !! "locale"), (options !! "limit"),
    (options !! "namespace"), (options !! "page"), (options !! "page_size"),
    (options !! "returning"), (options !! "start"), (options !! "timezone"),
    (options !! "where"); rewrite ?Hb, ?andb_false_r; simpl;
    eexists; repeat split; reflexivity.
Qed.

Lemma make_context_without_base_witness :
  exists c, make_context {["limit" := VStr "many"]} = Ok c /\
            _limit c = VStr "many" /\ where_ c = VNone /\
            returning c = VReturnType Records.
Proof.
  exact (make_context_without_base {["limit" := VStr "many"]} eq_refl).
Defined.

(** X5 (paging): with a page [p] set, the start index is [(p - 1)] times
    the effective limit, whatever [start] was given; the effective
    limit is the page size when one is set, else the raw limit, and
    counts as 0 when neither is set.  With no page, or the page 0, the
    start index is the raw [start]. *)
Theorem paging_derivation (c : Context.t) :
  (forall p ps, page c = VInt p -> p <> 0 -> page_size c = VInt ps -> ps <> 0 ->
     get_limit c = VInt ps /\ get_start c = Ok (VInt ((p - 1) * ps))) /\
  (forall p l, page c = VInt p -> p <> 0 -> truthy (page_size c) = false ->
     _limit c = VInt l ->
     get_limit c = VInt l /\ get_start c = Ok (VInt ((p - 1) * l))) /\
  (forall p, page c = VInt p -> p <> 0 -> truthy (page_size c) = false ->
     _limit c = VNone -> get_start c = Ok (VInt 0)) /\
  (truthy (page c) = false -> get_start c = Ok (_start c)).
Proof.
  unfold get_start, get_limit, py_or. split; [|split; [|split]].
  - intros p ps Hp Hp0 Hps Hps0. apply Z.eqb_neq in Hp0, Hps0.
    rewrite Hp, Hps. cbn. rewrite Hp0, Hps0. cbn. rewrite Hps0.
    split; reflexivity.
  - intros p l Hp Hp0 Hps Hl. apply Z.eqb_neq in Hp0.
    rewrite Hp, Hps, Hl. cbn. rewrite Hp0. cbn.
    split; [reflexivity|].
    destruct (Z.eqb l 0) eqn:E; cbn; [|reflexivity].
    apply Z.eqb_eq in E. subst l. rewrite Z.mul_0_r. reflexivity.
  - intros p Hp Hp0 Hps Hl. apply Z.eqb_neq in Hp0.
    rewrite Hp, Hps, Hl. cbn. rewrite Hp0. cbn.
    rewrite Z.mul_0_r. reflexivity.
  - intros ->. reflexivity.
Qed.

Lemma paging_derivation_witness :
  get_limit Samples.paged = VInt 10 /\ get_start Samples.paged = Ok (VInt 20).
Proof.
  apply (proj1 (paging_derivation Samples.paged) 3 10); first
    [ reflexivity | discriminate ].
Defined.

(** ** Strings *)

Lemma split_on_nonempty (sep : ascii) (s : string) : split_on sep s <> [].
Proof.
  destruct s as [|c rest]; simpl; [discriminate|].
  destruct (Ascii.eqb c sep); [discriminate|].
  destruct (split_on sep rest); discriminate.
Qed.

(** Joining what [split] returns gives the string back. *)
Lemma join_split_on (s : string) :
  join "," (split_on "," s) = s.
Proof.
  induction s as [|c rest IH]; [reflexivity|].
  simpl split_on. destruct (Ascii.eqb_spec c ",") as [->|Hc].
  - pose proof (split_on_nonempty "," rest) as Hne.
    destruct (split_on "," rest) as [|w ws]; [congruence|].
    change (join "," ("" :: w :: ws)) with (String "," (join "," (w :: ws))).
    rewrite IH. reflexivity.
  - pose proof (split_on_nonempty "," rest) as Hne.
    destruct (split_on "," rest) as [|w ws]; [congruence|].
    destruct ws as [|w' ws].
    + simpl in *. congruence.
    + change (join "," (String c w :: w' :: ws))
        with (String c (join "," (w :: w' :: ws))).
      rewrite IH. reflexivity.
Qed.

(** No part that [split] returns holds the separator. *)
Lemma split_on_parts (s : string) :
  Forall (fun p => ~ In ","%char (list_ascii_of_string p)) (split_on "," s).
Proof.
  induction s as [|c rest IH]; simpl.
  - constructor; [intros []|constructor].
  - destruct (Ascii.eqb_spec c ",") as [->|Hc].
    + constructor; [intros []|exact IH].
    + destruct (split_on "," rest) as [|w ws].
      * constructor; [|constructor]. simpl. intros [E|[]]. congruence.
      * apply Forall_cons in IH. destruct IH as [Hw Hws].
        constructor; [|exact Hws]. simpl. intros [E|E]; [congruence|tauto].
Qed.

(** Splitting a part without separator, followed or not by more text. *)
Lemma split_on_part (p : string) :
  ~ In ","%char (list_ascii_of_string p) ->
  split_on "," p = [p] /\
  forall rest, split_on "," (String.append p (String "," rest))
               = p :: split_on "," rest.
Proof.
  induction p as [|c p IH]; intros Hp.
  - split; [reflexivity|]. intros rest. reflexivity.
  - simpl in Hp.
    assert (Hc : c <> ","%char) by (intros ->; apply Hp; left; reflexivity).
    assert (Hp' : ~ In ","%char (list_ascii_of_string p))
      by (intros H; apply Hp; right; exact H).
    destruct (IH Hp') as [E1 E2]. apply Ascii.eqb_neq in Hc.
    split.
    + simpl. rewrite Hc, E1. reflexivity.
    + intros rest. simpl. rewrite Hc, E2. reflexivity.
Qed.

Lemma split_on_join (parts : list string) :
  parts <> [] ->
  Forall (fun p => ~ In ","%char (list_ascii_of_string p)) parts ->
  split_on "," (join "," parts) = parts.
Proof.
  induction parts as [|p rest IH]; [congruence|]. intros _ H.
  apply Forall_cons in H. destruct H as [Hp Hrest].
  destruct rest as [|q rest].
  - simpl. apply (split_on_part p Hp).
  - change (join "," (p :: q :: rest))
      with (String.append p (String.append "," (join "," (q :: rest)))).
    change (String.append "," (join "," (q :: rest)))
      with (String "," (join "," (q :: rest))).
    rewrite (proj2 (split_on_part p Hp)). rewrite IH; [reflexivity| |exact Hrest].
    discriminate.
Qed.

Lemma lstrip_length (chars : list ascii) (s : string) :
  (String.length (lstrip chars s) <= String.length s)%nat.
Proof.
  induction s as [|c rest IH]; simpl; [lia|].
  destruct (mem_ascii c chars); simpl; lia.
Qed.

Lemma rstrip_length (chars : list ascii) (s : string) :
  (String.length (rstrip chars s) <= String.length s)%nat.
Proof.
  induction s as [|c rest IH]; simpl; [lia|].
  destruct (rstrip chars rest) as [|c' r'].
  - destruct (mem_ascii c chars); simpl; lia.
  - simpl in *. lia.
Qed.

(** A string that [strip] leaves as it is does not start with one of
    the characters. *)
Lemma strip_fixed_start (chars : list ascii) (c : ascii) (rest : string) :
  strip chars (String c rest) = String c rest -> mem_ascii c chars = false.
Proof.
  unfold strip. simpl. destruct (mem_ascii c chars); [|reflexivity].
  intros H. apply (f_equal String.length) in H. simpl in H.
  pose proof (rstrip_length chars (lstrip chars rest)).
  pose proof (lstrip_length chars rest). lia.
Qed.

Lemma order_part_token (plus : bool) (item : string * Ordering) :
  strip ["+"; "-"]%char (fst item) = fst item ->
  order_part (order_token plus item)
  = VTuple [VStr (fst item); VOrdering (snd item)].
Proof.
  destruct item as [n o]. simpl. intros Hn.
  unfold order_part, order_token. simpl snd. simpl fst.
  destruct o.
  - destruct plus.
    + unfold strip in *. simpl. rewrite Hn. reflexivity.
    + rewrite Hn. destruct n as [|c rest]; [reflexivity|].
      apply strip_fixed_start in Hn. simpl.
      destruct (Ascii.eqb_spec c "-") as [->|]; [discriminate Hn|reflexivity].
  - unfold strip in *. simpl. rewrite Hn. reflexivity.
Qed.

(** X6: a [distinct] given as a string is cut at its commas and at
    nothing else: the names, joined by commas, are the string again, and
    no name holds a comma. *)
Theorem distinct_string_split (options : Options) (c : Context.t) (s : string) :
  make_context options = Ok c ->
  options !! "distinct" = Some (VStr s) ->
  exists names,
    distinct c = VList (map VStr names) /\
    join "," names = s /\
    names <> [] /\
    Forall (fun p => ~ In ","%char (list_ascii_of_string p)) names.
Proof.
  intros H Hd. eapply make_context_inv in H; [|reflexivity].
  destruct H as (d & f & lo & li & n & o & p & ps & r & sc & st & tz & w & H).
  destruct H as (Hdis & _ & _ & _ & _ & _ & _ & _ & _ & _ & _ & _ & _ & ->).
  unfold _merge_distinct in Hdis. rewrite Hd in Hdis. injection Hdis as <-.
  exists (split_on "," s). split; [reflexivity|].
  split; [apply join_split_on|]. split; [apply split_on_nonempty|].
  apply split_on_parts.
Qed.

Lemma distinct_string_split_witness :
  exists names,
    distinct (Context.__init__ (split_names "id, name") VNone VNone VNone VNone
                VNone VNone VNone (VReturnType Records) VNone VNone VNone
                VNone)
    = VList (map VStr names) /\
    join "," names = "id, name" /\
    names <> [] /\
    Forall (fun p => ~ In ","%char (list_ascii_of_string p)) names.
Proof.
  apply (distinct_string_split {["distinct" := VStr "id, name"]} _ "id, name");
    reflexivity.
Defined.

(** X7: the string form of [order] is read back item by item: for a
    list of names without comma and without sign at their ends, each
    with its direction, written with [-] for descending and with [+] or
    nothing for ascending and joined by commas, the merged order is that
    list. *)
Theorem order_string_round_trip (options : Options) (c : Context.t)
    (plus : bool) (items : list (string * Ordering)) :
  make_context options = Ok c ->
  items <> [] ->
  Forall (fun item => order_name (fst item)) items ->
  options !! "order" = Some (VStr (join "," (map (order_token plus) items))) ->
  order c
  = VList (map (fun item => VTuple [VStr (fst item); VOrdering (snd item)])
               items).
Proof.
  intros H Hne Hitems Ho. eapply make_context_inv in H; [|reflexivity].
  destruct H as (d & f & lo & li & n & o & p & ps & r & sc & st & tz & w & H).
  destruct H as (_ & _ & _ & _ & _ & Hord & _ & _ & _ & _ & _ & _ & _ & ->).
  unfold _merge_order in Hord. rewrite Ho in Hord. injection Hord as <-.
  simpl. f_equal. rewrite split_on_join.
  - rewrite map_map. apply map_ext_in. intros item Hin.
    apply order_part_token.
    rewrite Forall_forall in Hitems. apply list_elem_of_In in Hin.
    exact (proj2 (Hitems item Hin)).
  - destruct items; [congruence|discriminate].
  - apply Forall_forall. intros tok Htok.
    apply list_elem_of_In, in_map_iff in Htok.
    destruct Htok as (item & <- & Hin).
    rewrite Forall_forall in Hitems. apply list_elem_of_In in Hin.
    destruct (Hitems item Hin) as [Hcomma _].
    destruct item as [nm [|]]; simpl in *; unfold order_token; simpl.
    + destruct plus; simpl; [intros [E|E]; [discriminate E|tauto]|exact Hcomma].
    + intros [E|E]; [discriminate E|tauto].
Qed.

Lemma order_string_round_trip_witness :
  order (Context.__init__ VNone VNone VNone VNone VNone
           (VList [VTuple [VStr "name"; VOrdering Desc];
                   VTuple [VStr "id"; VOrdering Asc]])
           VNone VNone (VReturnType Records) VNone VNone VNone VNone)
  = VList [VTuple [VStr "name"; VOrdering Desc];
           VTuple [VStr "id"; VOrdering Asc]].
Proof.
  apply (order_string_round_trip {["order" := VStr "-name,id"]} _ false
           [("name", Desc); ("id", Asc)]); try reflexivity.
  - discriminate.
  - repeat constructor; simpl; try reflexivity;
      intros H; repeat (destruct H as [H|H]; [discriminate H|]); exact H.
Defined.

(** ** Dictionaries in insertion order *)

Lemma assoc_dict_set {A} (k k' : string) (v : A) (d : list (string * A)) :
  assoc k (dict_set k' v d) = if String.eqb k k' then Some v else assoc k d.
Proof.
  induction d as [|[k2 v2] rest IH]; simpl; [reflexivity|].
  destruct (String.eqb_spec k' k2) as [->|Hne]; simpl.
  - destruct (String.eqb k k2); reflexivity.
  - rewrite IH. destruct (String.eqb_spec k k') as [->|]; [|reflexivity].
    apply String.eqb_neq in Hne. rewrite Hne. reflexivity.
Qed.

Lemma assoc_absent {A} (k : string) (d : list (string * A)) :
  k ∉ map fst d -> assoc k d = None.
Proof.
  induction d as [|[k2 v2] rest IH]; simpl; [reflexivity|].
  intros H. apply not_elem_of_cons in H. destruct H as [Hne H].
  apply String.eqb_neq in Hne. rewrite Hne. auto.
Qed.

(** After [d.update(other)] a key reads as in [other] when it is there,
    else as in [d]. *)
Lemma assoc_dict_update {A} (k : string) (other d : list (string * A)) :
  NoDup (map fst other) ->
  assoc k (dict_update d other)
  = match assoc k other with Some v => Some v | None => assoc k d end.
Proof.
  unfold dict_update. revert d.
  induction other as [|[k2 v2] rest IH]; intros d Hnd; simpl; [reflexivity|].
  simpl in Hnd. apply NoDup_cons in Hnd. destruct Hnd as [Hk2 Hnd].
  rewrite (IH _ Hnd), assoc_dict_set.
  destruct (String.eqb_spec k k2) as [->|Hne]; [|reflexivity].
  rewrite (assoc_absent _ _ Hk2). reflexivity.
Qed.

Lemma update_scope_lookup (explicit inherited : list (string * Value))
    (k : string) :
  NoDup (map fst explicit) -> NoDup (map fst inherited) ->
  assoc k (dict_update (dict_update [] inherited) explicit)
  = match assoc k explicit with
    | Some v => Some v
    | None => assoc k inherited
    end.
Proof.
  intros He Hi. rewrite (assoc_dict_update k explicit) by exact He.
  rewrite (assoc_dict_update k inherited) by exact Hi.
  destruct (assoc k explicit), (assoc k inherited); reflexivity.
Qed.

(** X8: an explicit scope that is not empty is laid over the scope of
    the base context: in the merged scope a key reads as in the explicit
    scope when it is there, else as in the base scope. *)
Theorem scope_merge_lookup (options : Options) (base c : Context.t)
    (explicit inherited : list (string * Value)) :
  make_context options = Ok c ->
  options !! "scope" = Some (VDict explicit) ->
  explicit <> [] ->
  NoDup (map fst explicit) ->
  options !! "context" = Some (VContext base) ->
  scope base = VDict inherited ->
  NoDup (map fst inherited) ->
  exists merged,
    scope c = VDict merged /\
    forall k, assoc k merged
              = match assoc k explicit with
                | Some v => Some v
                | None => assoc k inherited
                end.
Proof.
  intros H Hs Hne Hnd Hc Hb Hni. eapply make_context_inv in H; [|reflexivity].
  destruct H as (d & f & lo & li & n & o & p & ps & r & sc & st & tz & w & H).
  destruct H as (_ & _ & _ & _ & _ & _ & _ & _ & _ & Hsc & _ & _ & _ & ->).
  unfold _merge_scope in Hsc. rewrite Hs, Hc in Hsc.
  assert (Ht : truthy (VDict explicit) = true)
    by (destruct explicit; [congruence|reflexivity]).
  rewrite Ht in Hsc.
  change (default VNone (Some (VContext base))) with (VContext base) in Hsc.
  change (inherit (VContext base) "scope" scope VNone)
    with (@Ok Value (scope base)) in Hsc.
  rewrite Hb in Hsc.
  change (update_scope (VDict inherited) (VDict explicit) = Ok sc) in Hsc.
  injection Hsc as <-.
  exists (dict_update (dict_update [] inherited) explicit). split.
  - cbn [scope Context.__init__]. unfold py_or.
    generalize (dict_update (dict_update [] inherited) explicit).
    intros [|x l]; reflexivity.
  - intros k. apply update_scope_lookup; assumption.
Qed.

(** Base scope [{"x": 1, "y": 2}], explicit scope [{"y": 3, "z": 4}] *)
Lemma scope_merge_lookup_witness :
  exists merged,
    scope (Context.__init__ VNone VNone VNone VNone VNone VNone VNone VNone
             (VReturnType Records)
             (VDict [("x", VInt 1); ("y", VInt 3); ("z", VInt 4)])
             VNone VNone VNone)
    = VDict merged /\
    forall k, assoc k merged
              = match assoc k [("y", VInt 3); ("z", VInt 4)] with
                | Some v => Some v
                | None => assoc k [("x", VInt 1); ("y", VInt 2)]
                end.
Proof.
  apply (scope_merge_lookup
           (<["scope" := VDict [("y", VInt 3); ("z", VInt 4)]]>
              {["context" := VContext Samples.scoped]})
           Samples.scoped);
    try reflexivity; try discriminate.
  - repeat constructor; intros H;
      repeat (apply elem_of_cons in H; destruct H as [H|H]; [discriminate H|]);
      inversion H.
  - repeat constructor; intros H;
      repeat (apply elem_of_cons in H; destruct H as [H|H]; [discriminate H|]);
      inversion H.
Defined.

(** X9: an explicit scope that is empty or [None] is not merged: it
    replaces the scope of the base context, and the merged context has
    the empty scope. *)
Theorem empty_scope_replaces (options : Options) (c : Context.t) (v : Value) :
  make_context options = Ok c ->
  options !! "scope" = Some v ->
  truthy v = false ->
  scope c = VDict [].
Proof.
  intros H Hs Hv. eapply make_context_inv in H; [|reflexivity].
  destruct H as (d & f & lo & li & n & o & p & ps & r & sc & st & tz & w & H).
  destruct H as (_ & _ & _ & _ & _ & _ & _ & _ & _ & Hsc & _ & _ & _ & ->).
  unfold _merge_scope in Hsc. rewrite Hs, Hv in Hsc. simpl in Hsc.
  injection Hsc as <-. simpl. unfold py_or. rewrite Hv. reflexivity.
Qed.

Lemma empty_scope_replaces_witness :
  exists c,
    make_context (<["scope" := VDict []]>
                    {["context" := VContext Samples.scoped]}) = Ok c /\
    scope Samples.scoped = VDict [("x", VInt 1); ("y", VInt 2)] /\
    scope c = VDict [].
Proof.
  eexists. split; [reflexivity|]. split; [reflexivity|].
  eapply (empty_scope_replaces
            (<["scope" := VDict []]> {["context" := VContext Samples.scoped]}));
    reflexivity.
Defined.

(** ** Field projection *)

Lemma py_in_names (x : string) (names : list string) :
  py_in (VStr x) (map VStr names) = existsb (fun y => String.eqb y x) names.
Proof.
  unfold py_in. induction names as [|y l IH]; simpl; [reflexivity|].
  rewrite IH. reflexivity.
Qed.

Lemma filter_names (P : Value -> bool) (names : list string) :
  List.filter P (map VStr names)
  = map VStr (List.filter (fun x => P (VStr x)) names).
Proof.
  induction names as [|y l IH]; simpl; [reflexivity|].
  destruct (P (VStr y)); simpl; rewrite IH; reflexivity.
Qed.

Lemma existsb_names (x : string) (names : list string) :
  existsb (fun y => String.eqb y x) names = true <-> x ∈ names.
Proof.
  rewrite existsb_exists, list_elem_of_In. split.
  - intros (y & Hy & E). apply String.eqb_eq in E. subst y. exact Hy.
  - intros H. exists x. split; [exact H|apply String.eqb_refl].
Qed.

(** X10: explicit fields, given as a list of names or as a string of
    names separated by commas, come first and in their order; they are
    followed by the fields of the base context that they lack, in the
    order of the base.  When neither list repeats a name, the merged
    list repeats none. *)
Theorem fields_merge_names (options : Options) (base c : Context.t)
    (v : Value) (names inherited : list string) :
  make_context options = Ok c ->
  options !! "fields" = Some v ->
  v = VList (map VStr names) \/ (exists s, v = VStr s /\ names = split_on "," s) ->
  names <> [] ->
  options !! "context" = Some (VContext base) ->
  Context.fields base = VList (map VStr inherited) ->
  inherited <> [] ->
  exists extra,
    Context.fields c = VList (map VStr (names ++ extra)%list) /\
    extra = List.filter (fun x => bool_decide (x ∉ names)) inherited /\
    (forall x, x ∈ (names ++ extra)%list <-> x ∈ names \/ x ∈ inherited) /\
    (NoDup names -> NoDup inherited -> NoDup (names ++ extra)%list).
Proof.
  intros H Hf Hv Hne Hc Hb Hnb. eapply make_context_inv in H; [|reflexivity].
  destruct H as (d & f & lo & li & n & o & p & ps & r & sc & st & tz & w & H).
  destruct H as (_ & Hfl & _ & _ & _ & _ & _ & _ & _ & _ & _ & _ & _ & ->).
  unfold _merge_fields in Hfl. rewrite Hf, Hc in Hfl.
  assert (Hnorm : match v with VStr s => split_names s | _ => v end
                  = VList (map VStr names)).
  { destruct Hv as [->|(s & -> & ->)]; reflexivity. }
  rewrite Hnorm in Hfl.
  change (default VNone (Some (VContext base))) with (VContext base) in Hfl.
  change (inherit (VContext base) "fields" Context.fields VNone)
    with (@Ok Value (Context.fields base)) in Hfl.
  assert (Ht : truthy (VList (map VStr names)) = true)
    by (destruct names; [congruence|reflexivity]).
  assert (Htb : truthy (VList (map VStr inherited)) = true)
    by (destruct inherited; [congruence|reflexivity]).
  rewrite Ht, Hb in Hfl. cbn [truthy andb bind] in Hfl.
  change (truthy (VList (map VStr inherited))) with
    (match map VStr inherited with [] => false | _ => true end) in Htb.
  rewrite Htb in Hfl. unfold append_missing in Hfl.
  cbn [py_iter bind] in Hfl. injection Hfl as <-.
  exists (List.filter (fun x => bool_decide (x ∉ names)) inherited).
  assert (Hmem : forall x,
             x ∈ List.filter (fun x => bool_decide (x ∉ names)) inherited
             <-> x ∈ inherited /\ x ∉ names).
  { intros x. rewrite list_elem_of_In, filter_In, bool_decide_eq_true.
    rewrite <- list_elem_of_In. reflexivity. }
  split; [|split; [reflexivity|split]].
  - cbn [Context.fields Context.__init__]. f_equal.
    rewrite filter_names, map_app. f_equal. f_equal.
    apply filter_ext. intros x. rewrite py_in_names.
    destruct (existsb (fun y => String.eqb y x) names) eqn:E.
    + apply existsb_names in E. symmetry. apply bool_decide_eq_false.
      intros Hx. exact (Hx E).
    + symmetry. apply bool_decide_eq_true. intros Hx.
      apply existsb_names in Hx. congruence.
  - intros x. rewrite elem_of_app, Hmem.
    destruct (decide (x ∈ names)); tauto.
  - intros Hn Hi. apply NoDup_app. split; [exact Hn|]. split.
    + intros x Hx Hx'. apply Hmem in Hx'. tauto.
    + apply NoDup_ListNoDup, List.NoDup_filter, NoDup_ListNoDup. exact Hi.
Qed.

Lemma fields_merge_names_witness :
  exists extra,
    Context.fields
      (Context.__init__ VNone (VList [VStr "name"; VStr "id"; VStr "email"])
         VNone VNone VNone VNone VNone VNone (VReturnType Records) VNone
         VNone VNone VNone)
    = VList (map VStr (["name"; "id"] ++ extra)%list) /\
    extra = List.filter (fun x => bool_decide (x ∉ ["name"; "id"]))
              ["id"; "email"] /\
    (forall x, x ∈ (["name"; "id"] ++ extra)%list
               <-> x ∈ ["name"; "id"] \/ x ∈ ["id"; "email"]) /\
    (NoDup ["name"; "id"] -> NoDup ["id"; "email"] ->
     NoDup (["name"; "id"] ++ extra)%list).
Proof.
  apply (fields_merge_names
           (<["fields" := VStr "name,id"]>
              {["context" := VContext Samples.projected]})
           Samples.projected _ (VStr "name,id"));
    try reflexivity; try discriminate.
  right. exists "name,id". split; reflexivity.
Defined.

(** * Further properties of the record state machine *)

(** The loop of [_parse_items] stops with [KeyError] at the first key
    that the schema does not declare. *)
Lemma parse_loop_undeclared (cls : Class) (constructor : Constructor)
    (items : dict) (f c : gmap string PyVal) :
  (exists kv, kv ∈ items /\ declared cls (fst kv) = false) ->
  exists k, parse_loop (__schema__ cls) constructor items f c
            = Err (KeyError k) /\
            k ∈ map fst items /\ declared cls k = false.
Proof.
  revert f c. induction items as [|[key value] rest IH]; intros f c H.
  - destruct H as (kv & Hin & _). inversion Hin.
  - simpl. unfold declared in *.
    destruct (assoc key (Model.fields (__schema__ cls))) as [field|] eqn:Ef.
    + assert (Hrest : exists kv, kv ∈ rest /\
                match assoc (fst kv) (Model.fields (__schema__ cls)),
                      assoc (fst kv) (collectors (__schema__ cls)) with
                | None, None => false | _, _ => true end = false).
      { destruct H as (kv & Hin & Hkv). apply elem_of_cons in Hin.
        destruct Hin as [->|Hin]; [|eauto].
        simpl in Hkv. rewrite Ef in Hkv. discriminate. }
      destruct (negb (test_flag field Virtual)).
      * destruct (IH (<[key := value]> f) c Hrest) as (k & -> & Hk & Hd).
        exists k. split; [reflexivity|split; [right; exact Hk|exact Hd]].
      * destruct (IH f c Hrest) as (k & -> & Hk & Hd).
        exists k. split; [reflexivity|split; [right; exact Hk|exact Hd]].
    + destruct (assoc key (collectors (__schema__ cls))) as [coll|] eqn:Ec.
      * assert (Hrest : exists kv, kv ∈ rest /\
                  match assoc (fst kv) (Model.fields (__schema__ cls)),
                        assoc (fst kv) (collectors (__schema__ cls)) with
                  | None, None => false | _, _ => true end = false).
        { destruct H as (kv & Hin & Hkv). apply elem_of_cons in Hin.
          destruct Hin as [->|Hin]; [|eauto].
          simpl in Hkv. rewrite Ef, Ec in Hkv. discriminate. }
        destruct (IH f (<[key := get_collection coll value constructor]> c)
                    Hrest) as (k & -> & Hk & Hd).
        exists k. split; [reflexivity|split; [right; exact Hk|exact Hd]].
      * exists key. split; [reflexivity|]. split; [left|].
        rewrite Ef, Ec. reflexivity.
Qed.

Lemma parse_items_undeclared (cls : Class) (constructor : Constructor)
    (d : option dict) :
  (exists kv, kv ∈ items_of d /\ declared cls (fst kv) = false) ->
  exists k, _parse_items cls d constructor = Err (KeyError k) /\
            k ∈ map fst (items_of d) /\ declared cls k = false.
Proof.
  intros H. destruct d as [[|kv rest]|].
  - destruct H as (kv & Hin & _). inversion Hin.
  - exact (parse_loop_undeclared cls constructor (kv :: rest) ∅ ∅ H).
  - destruct H as (kv & Hin & _). inversion Hin.
Qed.

(** What the loop of [_parse_items] puts into the fields it returns:
    values of the items, under keys that are fields and not virtual. *)
Lemma parse_loop_fields (schema : Schema) (constructor : Constructor)
    (items : dict) (f c f' c' : gmap string PyVal) :
  parse_loop schema constructor items f c = Ok (f', c') ->
  forall k,
    (k ∉ map fst items -> f' !! k = f !! k) /\
    (forall v, f' !! k = Some v ->
       f !! k = Some v \/
       ((k, v) ∈ items /\
        exists field, assoc k (Model.fields schema) = Some field /\
                      test_flag field Virtual = false)).
Proof.
  revert f c. induction items as [|[key value] rest IH]; intros f c H k.
  - simpl in H. injection H as <- <-. split; [reflexivity|]. intros v Hv.
    left. exact Hv.
  - simpl in H.
    destruct (assoc key (Model.fields schema)) as [field|] eqn:Ef.
    + destruct (test_flag field Virtual) eqn:Ev; simpl in H.
      * destruct (IH _ _ H k) as [H1 H2]. split.
        -- intros Hk. apply not_elem_of_cons in Hk. apply H1, Hk.
        -- intros v Hv. destruct (H2 v Hv) as [Hf|(Hin & Hfield)];
             [left; exact Hf|right]. split; [right; exact Hin|exact Hfield].
      * destruct (IH _ _ H k) as [H1 H2]. split.
        -- intros Hk. apply not_elem_of_cons in Hk. destruct Hk as [Hne Hk].
           rewrite (H1 Hk). apply lookup_insert_ne.
           simpl in Hne. intros E. apply Hne. symmetry. exact E.
        -- intros v Hv. destruct (H2 v Hv) as [Hf|(Hin & Hfield)].
           ++ rewrite lookup_insert in Hf. case_decide as E.
              ** injection Hf as <-. subst k. right. split; [left|].
                 exists field. split; assumption.
              ** left. exact Hf.
           ++ right. split; [right; exact Hin|exact Hfield].
    + destruct (assoc key (collectors schema)) as [coll|]; [|discriminate].
      destruct (IH _ _ H k) as [H1 H2]. split.
      * intros Hk. apply not_elem_of_cons in Hk. apply H1, Hk.
      * intros v Hv. destruct (H2 v Hv) as [Hf|(Hin & Hfield)];
          [left; exact Hf|right]. split; [right; exact Hin|exact Hfield].
Qed.


Lemma parse_loop_error (cls : Class) (constructor : Constructor)
    (items : dict) (f c : gmap string PyVal) (e : exn) :
  parse_loop (__schema__ cls) constructor items f c = Err e ->
  exists k, e = KeyError k /\ k ∈ map fst items /\ declared cls k = false.
Proof.
  revert f c. induction items as [|[key value] rest IH]; intros f c H.
  - discriminate H.
  - simpl in H. unfold declared.
    destruct (assoc key (Model.fields (__schema__ cls))) as [field|] eqn:Ef.
    + destruct (negb (test_flag field Virtual));
        destruct (IH _ _ H) as (k & -> & Hk & Hd);
        exists k; (split; [reflexivity|split; [right; exact Hk|exact Hd]]).
    + destruct (assoc key (collectors (__schema__ cls))) as [coll|] eqn:Ec.
      * destruct (IH _ _ H) as (k & -> & Hk & Hd).
        exists k. split; [reflexivity|split; [right; exact Hk|exact Hd]].
      * injection H as <-. exists key. split; [reflexivity|].
        split; [left|]. rewrite Ef, Ec. reflexivity.
Qed.

Lemma parse_items_error (cls : Class) (constructor : Constructor)
    (d : option dict) (e : exn) :
  _parse_items cls d constructor = Err e ->
  exists k, e = KeyError k /\ k ∈ map fst (items_of d) /\
            declared cls k = false.
Proof.
  intros H. destruct d as [[|kv rest]|]; try discriminate H.
  exact (parse_loop_error cls constructor (kv :: rest) ∅ ∅ e H).
Qed.

(** X11: the constructor refuses a key that the schema does not declare,
    in [state] as in [values]: when the context is built, it raises
    [KeyError] for such a key and returns no record. *)
Theorem init_undeclared_key (cls : Class) (values state : option dict)
    (options : Options) (ctx : Context.t) :
  make_context (setdefault "store" (__store__ cls) options) = Ok ctx ->
  (exists kv, kv ∈ (items_of state ++ items_of values)%list /\
              declared cls (fst kv) = false) ->
  exists k, Model.__init__ cls values state options = Err (KeyError k) /\
            declared cls k = false /\
            k ∈ map fst (items_of state ++ items_of values)%list.
Proof.
  intros Hc (kv & Hin & Hkv). unfold Model.__init__. rewrite Hc.
  cbn [bind]. rewrite map_app.
  destruct (_parse_items cls state FromState) as [[f1 c1]|e] eqn:E1.
  - cbn [bind].
    assert (Hv : exists kv, kv ∈ items_of values /\ declared cls (fst kv) = false).
    { apply elem_of_app in Hin. destruct Hin as [Hin|Hin]; [|eauto].
      destruct (parse_items_undeclared cls FromState state) as (k & E & _);
        [eauto|]. congruence. }
    destruct (parse_items_undeclared cls FromValues values Hv)
      as (k & -> & Hk & Hd).
    exists k. split; [reflexivity|]. split; [exact Hd|].
    apply elem_of_app. right. exact Hk.
  - cbn [bind]. destruct (parse_items_error _ _ _ _ E1) as (k & -> & Hk & Hd).
    exists k. split; [reflexivity|]. split; [exact Hd|].
    apply elem_of_app. left. exact Hk.
Qed.

Lemma init_undeclared_key_witness :
  exists k,
    Model.__init__ Samples.User (Some [("name", Samples.bob);
                                       ("email", Samples.rob)]) None ∅
    = Err (KeyError k) /\
    declared Samples.User k = false /\
    k ∈ map fst (items_of None
                 ++ items_of (Some [("name", Samples.bob);
                                    ("email", Samples.rob)]))%list.
Proof.
  eapply (init_undeclared_key Samples.User _ None ∅); [reflexivity|].
  exists ("email", Samples.rob). split; [|reflexivity].
  right. left.
Defined.



(** ** Reading back what was written *)

(** X13: a write that [set] accepts is read back: on a field without
    custom accessors, after [set(key, value)] has returned,
    [get_value(key)] returns the object [value] itself. *)
Theorem set_then_get_value (cls : Class) (self after : Model.t)
    (key : string) (value : PyVal) (field : Field) (out : SetOutcome) :
  direct key ->
  assoc key (Model.fields (__schema__ cls)) = Some field ->
  settermethod field = None ->
  gettermethod field = None ->
  Model.set cls self key value = (after, Ok out) ->
  exists v, get_value cls after key PyNone = Ok v /\ py_is v value = true.
Proof.
  intros Hd Hf Hs Hg H.
  rewrite (set_plain_field _ _ _ _ _ Hd Hf Hs) in H.
  unfold get_value. rewrite Hf, Hg.
  destruct (py_is (state_get self key) value) eqn:Ei.
  - destruct (__changes self !! key) eqn:Ec; [|discriminate].
    injection H as <- _. simpl. rewrite lookup_delete_eq.
    eexists. split; [reflexivity|]. exact Ei.
  - injection H as <- _. simpl. rewrite lookup_insert_eq.
    eexists. split; [reflexivity|]. apply py_is_refl.
Qed.

Lemma set_then_get_value_witness :
  exists v,
    get_value Samples.User
      (fst (Model.set Samples.User Samples.loaded_bob "name" Samples.rob))
      "name" PyNone = Ok v /\
    py_is v Samples.rob = true.
Proof.
  eapply (set_then_get_value Samples.User Samples.loaded_bob _ "name"
            Samples.rob (Samples.plain "name" [])); reflexivity.
Defined.

(** X14: [mark_loaded] changes no value that the record shows: for a
    field without custom getter, [get_value] returns after it what it
    returned before; nothing is pending after it, and a second
    [mark_loaded] changes nothing. *)
Theorem mark_loaded_keeps_values (cls : Class) (self : Model.t)
    (key : string) (default_ : PyVal) :
  (forall field, assoc key (Model.fields (__schema__ cls)) = Some field ->
                 gettermethod field = None) ->
  get_value cls (mark_loaded self) key default_
  = get_value cls self key default_ /\
  local_changes (mark_loaded self) = ∅ /\
  mark_loaded (mark_loaded self) = mark_loaded self.
Proof.
  intros Hg. split; [|split].
  - unfold get_value.
    destruct (assoc key (Model.fields (__schema__ cls))) as [field|] eqn:Ef;
      [|reflexivity].
    rewrite (Hg field eq_refl). simpl. rewrite lookup_empty, lookup_union.
    destruct (__changes self !! key), (__state self !! key); reflexivity.
  - unfold local_changes. simpl. apply map_imap_empty.
  - unfold mark_loaded. simpl. rewrite (left_id_L ∅ (∪)). reflexivity.
Qed.

Lemma mark_loaded_keeps_values_witness :
  get_value Samples.User (mark_loaded Samples.renamed_bob) "name" PyNone
  = get_value Samples.User Samples.renamed_bob "name" PyNone /\
  local_changes (mark_loaded Samples.renamed_bob) = ∅ /\
  mark_loaded (mark_loaded Samples.renamed_bob)
  = mark_loaded Samples.renamed_bob.
Proof.
  apply (mark_loaded_keeps_values Samples.User Samples.renamed_bob "name").
  intros field H. injection H as <-. reflexivity.
Defined.

(** X15: [local_changes] after a write: when [set] has written on a
    plain field an object that is not the baseline one, the entry of the
    field is the pair of the baseline value and the new one, and the
    entries of the other fields are as before; [reset] leaves no entry. *)
Theorem local_changes_after_set (cls : Class) (self : Model.t)
    (key : string) (value : PyVal) (field : Field) :
  direct key ->
  assoc key (Model.fields (__schema__ cls)) = Some field ->
  settermethod field = None ->
  py_is (state_get self key) value = false ->
  local_changes (fst (Model.set cls self key value)) !! key
  = Some (state_get self key, value) /\
  (forall other, other <> key ->
     local_changes (fst (Model.set cls self key value)) !! other
     = local_changes self !! other) /\
  local_changes (reset (fst (Model.set cls self key value))) = ∅.
Proof.
  intros Hd Hf Hs Hi.
  rewrite (set_plain_field _ _ _ _ _ Hd Hf Hs), Hi. simpl.
  unfold local_changes. simpl. split; [|split].
  - rewrite map_lookup_imap, lookup_insert_eq. reflexivity.
  - intros other Hne. rewrite !map_lookup_imap, lookup_insert_ne by congruence.
    reflexivity.
  - apply map_imap_empty.
Qed.

Lemma local_changes_after_set_witness :
  local_changes
    (fst (Model.set Samples.User Samples.loaded_bob "name" Samples.rob))
    !! "name" = Some (Samples.bob, Samples.rob).
Proof.
  apply (local_changes_after_set Samples.User Samples.loaded_bob "name"
           Samples.rob (Samples.plain "name" [])); reflexivity.
Defined.

(** ** After a save *)

Lemma update_from_keeps (d : gmap string PyVal) (values : dict) (k : string) :
  is_Some (d !! k) -> is_Some (update_from d values !! k).
Proof.
  unfold update_from. revert d.
  induction values as [|[k2 v2] rest IH]; intros d H; simpl; [exact H|].
  apply IH. rewrite lookup_insert. case_decide; [eauto|exact H].
Qed.

(** X17: whenever [save] returns, nothing is left pending, every key
    that was pending or in the baseline is in the baseline, the context
    and the collections are untouched, and a second [save], with any
    options, returns [False] and changes nothing. *)
Theorem save_returns_clean (stores : Stores) (cls : Class)
    (self after : Model.t) (options : Options) (b : bool) :
  save stores cls self options = (after, Ok b) ->
  __changes after = ∅ /\
  (forall k, is_Some (__changes self !! k) \/ is_Some (__state self !! k) ->
             is_Some (__state after !! k)) /\
  context after = context self /\
  __collections after = __collections self /\
  (forall stores' options',
     save stores' cls after options' = (after, Ok false)).
Proof.
  unfold save. destruct (__view__ cls) eqn:Hv; [discriminate|].
  destruct (has_items (__changes self)) eqn:Hd.
  - destruct (make_context _) as [save_context|]; [|discriminate].
    destruct (Context.store (context self)) as [store_|]; [|discriminate].
    cbn [bind].
    destruct (as_store stores "save_record" store_) as [backend|];
      [|discriminate]. cbn [bind].
    destruct (save_record backend self save_context) as [values|];
      [|discriminate].
    intros H. injection H as <- <-. simpl.
    split; [reflexivity|]. split; [|split; [reflexivity|split; [reflexivity|]]].
    + intros k [Hk|Hk]; rewrite lookup_union.
      * destruct (update_from_keeps _ values k Hk) as [x ->].
        destruct (__state self !! k); eauto.
      * destruct Hk as [x ->].
        destruct (update_from (__changes self) values !! k); eauto.
    + intros stores' options'. reflexivity.
  - intros H. injection H as <- <-. apply has_items_false in Hd.
    split; [exact Hd|]. split; [|split; [reflexivity|split; [reflexivity|]]].
    + intros k [Hk|Hk]; [|exact Hk]. rewrite Hd, lookup_empty in Hk.
      destruct Hk as [x Hx]. discriminate.
    + intros stores' options'. apply has_items_false in Hd. rewrite Hd.
      reflexivity.
Qed.

Lemma save_returns_clean_witness :
  exists after,
    save Samples.keeping_stores Samples.User Samples.renamed_bob ∅
    = (after, Ok true) /\
    __changes after = ∅ /\
    __state after !! "name" = Some Samples.rob /\
    save ∅ Samples.User after ∅ = (after, Ok false).
Proof.
  eexists. split; [reflexivity|].
  pose proof (save_returns_clean Samples.keeping_stores Samples.User
                Samples.renamed_bob _ ∅ true eq_refl) as (H1 & _ & _ & _ & H5).
  split; [exact H1|]. split; [reflexivity|]. apply H5.
Defined.

(** ** Many writes *)

(** What a write under an undotted key leaves of the record, on a model
    without custom setters. *)
Lemma set_direct_result (cls : Class) (self : Model.t) (key : string)
    (value : PyVal) :
  no_setters cls = true -> direct key ->
  fst (Model.set cls self key value)
  = match assoc key (Model.fields (__schema__ cls)) with
    | Some _ =>
        with_changes self
          (if py_is (state_get self key) value
           then base.delete key (__changes self)
           else <[key := value]> (__changes self))
    | None =>
        match assoc key (collectors (__schema__ cls)) with
        | Some _ =>
            with_collections self (<[key := value]> (__collections self))
        | None => self
        end
    end.
Proof.
  intros Hn Hd. unfold no_setters in Hn.
  apply andb_true_iff in Hn. destruct Hn as [Hf Hc].
  unfold Model.set. rewrite Hd. simpl.
  destruct (assoc key (Model.fields (__schema__ cls))) as [field|] eqn:Ef.
  - pose proof (assoc_forallb
                  (fun f => match settermethod f with
                            | None => true | Some _ => false end)
                  _ _ _ Hf Ef) as Hs.
    simpl in Hs. destruct (settermethod field); [discriminate|].
    destruct (py_is (state_get self key) value); simpl; [|reflexivity].
    destruct (__changes self !! key) eqn:E; simpl; [reflexivity|].
    rewrite (delete_id _ _ E). symmetry. apply with_changes_same.
  - destruct (assoc key (collectors (__schema__ cls))) as [coll|] eqn:Ec;
      [|reflexivity].
    pose proof (assoc_forallb
                  (fun c => match coll_settermethod c with
                            | None => true | Some _ => false end)
                  _ _ _ Hc Ec) as Hs.
    simpl in Hs. destruct (coll_settermethod coll); [discriminate|].
    reflexivity.
Qed.

(** Writes under two different undotted keys commute. *)
Lemma set_commute (cls : Class) (self : Model.t) (k1 k2 : string)
    (v1 v2 : PyVal) :
  no_setters cls = true -> direct k1 -> direct k2 -> k1 <> k2 ->
  fst (Model.set cls (fst (Model.set cls self k1 v1)) k2 v2)
  = fst (Model.set cls (fst (Model.set cls self k2 v2)) k1 v1).
Proof.
  intros Hn H1 H2 Hne.
  rewrite (set_direct_result cls self k1 v1 Hn H1).
  rewrite (set_direct_result cls self k2 v2 Hn H2).
  destruct (assoc k1 (Model.fields (__schema__ cls))) as [f1|] eqn:E1;
    [|destruct (assoc k1 (collectors (__schema__ cls))) as [c1|] eqn:C1];
    (destruct (assoc k2 (Model.fields (__schema__ cls))) as [f2|] eqn:E2;
     [|destruct (assoc k2 (collectors (__schema__ cls))) as [c2|] eqn:C2]);
    rewrite !set_direct_result by assumption;
    rewrite ?E1, ?E2, ?C1, ?C2;
    destruct self as [ctx st ch co]; unfold with_changes, with_collections,
      state_get; simpl;
    try reflexivity.
  - destruct (py_is (default PyNone (st !! k1)) v1),
      (py_is (default PyNone (st !! k2)) v2); f_equal;
      apply map_eq; intros i;
      repeat (rewrite lookup_insert || rewrite lookup_delete);
      repeat case_decide; congruence.
  - f_equal. apply insert_insert_ne. congruence.
Qed.

(** X19: the record that [update] leaves does not depend on the order
    of its items, for undotted keys that are all different, on a model
    without custom setters. *)
Theorem update_order_independent (cls : Class) (self : Model.t)
    (values values' : dict) :
  no_setters cls = true ->
  Forall (fun kv => direct (fst kv)) values ->
  NoDup (map fst values) ->
  values ≡ₚ values' ->
  fst (update cls self values) = fst (update cls self values').
Proof.
  intros Hn Hd Hnd Hp. revert self.
  induction Hp as [|[k v] l l' Hp IH|[k1 v1] [k2 v2] l|l l' l'' Hp1 IH1 Hp2 IH2];
    intros self.
  - reflexivity.
  - rewrite !update_cons. apply Forall_cons in Hd. destruct Hd as [_ Hd].
    simpl in Hnd. apply NoDup_cons in Hnd. destruct Hnd as [_ Hnd].
    apply IH; assumption.
  - rewrite !update_cons.
    apply Forall_cons in Hd. destruct Hd as [Hd1 Hd].
    apply Forall_cons in Hd. destruct Hd as [Hd2 _].
    simpl in Hnd. apply NoDup_cons in Hnd. destruct Hnd as [Hne _].
    apply not_elem_of_cons in Hne. destruct Hne as [Hne _].
    simpl in Hd1, Hd2.
    rewrite (set_commute cls self k2 k1 v2 v1 Hn Hd1 Hd2 Hne). reflexivity.
  - rewrite IH1 by assumption. apply IH2.
    + rewrite <- Hp1. exact Hd.
    + rewrite <- Hp1. exact Hnd.
Qed.

Lemma update_order_independent_witness :
  fst (update Samples.User Samples.loaded_bob
         [("name", Samples.rob); ("id", Samples.one)])
  = fst (update Samples.User Samples.loaded_bob
           [("id", Samples.one); ("name", Samples.rob)]).
Proof.
  apply (update_order_independent Samples.User Samples.loaded_bob
           [("name", Samples.rob); ("id", Samples.one)]
           [("id", Samples.one); ("name", Samples.rob)]).
  - reflexivity.
  - repeat constructor.
  - repeat constructor; intros H;
      repeat (apply elem_of_cons in H; destruct H as [H|H]; [discriminate H|]);
      inversion H.
  - apply Permutation_swap.
Defined.

(** ** Records without a store *)

Lemma setdefault_context_empty (c : Context.t) :
  make_context (setdefault "context" (VContext c) ∅)
  = Ok (Context.__init__ (distinct c) (Context.fields c) (locale c)
          (_limit c) (namespace c) (order c) (page c) (page_size c)
          (returning c) (scope c) (_start c) (timezone c) (where_ c)).
Proof.
  unfold setdefault. rewrite lookup_empty, insert_empty.
  apply make_context_of_context.
Qed.

(** X20: a record that the constructor has built is bound to no store.
    On a model that is not a view, its [delete] raises, whatever the
    options, and so does its [save] when changes are pending; with no
    option the exception is [AttributeError] for [store]; the record is
    left as it was and no backend is called. *)
Theorem constructed_record_unbound (stores : Stores) (cls : Class)
    (values state : option dict) (options : Options) (self : Model.t) :
  Model.__init__ cls values state options = Ok self ->
  __view__ cls = false ->
  delete stores cls self ∅ = (self, Err (AttributeError "store")) /\
  (forall options' v, delete stores cls self options' <> (self, Ok v)) /\
  (has_items (__changes self) = true ->
   save stores cls self ∅ = (self, Err (AttributeError "store")) /\
   forall options' after b, save stores cls self options' <> (after, Ok b)).
Proof.
  intros Hi Hv. pose proof (init_context_unbound _ _ _ _ _ Hi) as Ha.
  assert (Hs : Context.store (context self) = Err (AttributeError "store"))
    by (unfold Context.store; rewrite Ha; reflexivity).
  split; [|split].
  - unfold delete. rewrite Hv, setdefault_context_empty, Hs. reflexivity.
  - intros options' v. unfold delete. rewrite Hv, Hs.
    destruct (make_context _); simpl; congruence.
  - intros Hd. split.
    + unfold save. rewrite Hv, Hd, setdefault_context_empty, Hs. reflexivity.
    + intros options' after b. unfold save. rewrite Hv, Hd, Hs.
      destruct (make_context _); simpl; congruence.
Qed.

Lemma constructed_record_unbound_witness :
  Model.__init__ Samples.User (Some [("name", Samples.rob)]) None ∅
  = Ok Samples.fresh_rob /\
  delete Samples.keeping_stores Samples.User Samples.fresh_rob ∅
  = (Samples.fresh_rob, Err (AttributeError "store")) /\
  save Samples.keeping_stores Samples.User Samples.fresh_rob ∅
  = (Samples.fresh_rob, Err (AttributeError "store")).
Proof.
  assert (Hi : Model.__init__ Samples.User (Some [("name", Samples.rob)])
                 None ∅ = Ok Samples.fresh_rob) by reflexivity.
  split; [exact Hi|].
  destruct (constructed_record_unbound Samples.keeping_stores Samples.User
              (Some [("name", Samples.rob)]) None ∅ Samples.fresh_rob
              Hi eq_refl)
    as (H1 & _ & H3).
  split; [exact H1|]. apply H3. reflexivity.
Defined.

(** X21: [create] on a view raises [ReadOnly] and builds nothing; on
    another model it returns the record that the constructor builds only
    when that record has no pending change, and raises [AttributeError]
    for [store] when it has one: the backend is never called. *)
Theorem create_without_store (stores : Stores) (cls : Class)
    (values state : option dict) (options : Options) :
  (__view__ cls = true ->
   create stores cls values state options = Err (ReadOnly (__name__ cls))) /\
  (__view__ cls = false ->
   forall record,
     Model.__init__ cls values state options = Ok record ->
     create stores cls values state options
     = if has_items (__changes record)
       then Err (AttributeError "store")
       else Ok record) /\
  (__view__ cls = false ->
   forall e,
     Model.__init__ cls values state options = Err e ->
     create stores cls values state options = Err e).
Proof.
  unfold create. split; [|split].
  - intros ->. reflexivity.
  - intros Hv record Hi. rewrite Hv, Hi. cbn [bind].
    pose proof (init_context_unbound _ _ _ _ _ Hi) as Ha.
    unfold save. rewrite Hv.
    destruct (has_items (__changes record)) eqn:Hd; [|reflexivity].
    rewrite setdefault_context_empty. unfold Context.store. rewrite Ha.
    reflexivity.
  - intros Hv e Hi. rewrite Hv, Hi. reflexivity.
Qed.

Lemma create_without_store_witness :
  create Samples.keeping_stores Samples.Report
    (Some [("name", Samples.rob)]) None ∅ = Err (ReadOnly "Report") /\
  create Samples.keeping_stores Samples.User
    (Some [("name", Samples.rob)]) None ∅ = Err (AttributeError "store").
Proof.
  pose proof (create_without_store Samples.keeping_stores Samples.Report
                (Some [("name", Samples.rob)]) None ∅) as (H1 & _).
  pose proof (create_without_store Samples.keeping_stores Samples.User
                (Some [("name", Samples.rob)]) None ∅) as (_ & H2 & _).
  split; [apply H1; reflexivity|].
  assert (Hi : Model.__init__ Samples.User (Some [("name", Samples.rob)])
                 None ∅ = Ok Samples.fresh_rob) by reflexivity.
  exact (H2 eq_refl Samples.fresh_rob Hi).
Defined.

(** ** Collections and paths *)

(** X22: [get_collection] asks the collector once.  When it returns a
    collection, baseline and pending changes are untouched, and a second
    call returns the same collection without the collector, whatever it
    would answer; when it raises, the record is as it was, and for a
    name without collector the exception is [KeyError]. *)
Theorem get_collection_caches (cls : Class)
    (collect_by_record : Collector -> Model.t -> result PyVal)
    (self : Model.t) (key : string) :
  (forall after collection,
     get_collection_ cls collect_by_record self key = (after, Ok collection) ->
     __state after = __state self /\
     __changes after = __changes self /\
     __collections after !! key = Some collection /\
     forall collect', get_collection_ cls collect' after key
                      = (after, Ok collection)) /\
  (forall after e,
     get_collection_ cls collect_by_record self key = (after, Err e) ->
     after = self) /\
  (assoc key (collectors (__schema__ cls)) = None ->
   get_collection_ cls collect_by_record self key = (self, Err (KeyError key))).
Proof.
  unfold get_collection_. split; [|split].
  - intros after collection.
    destruct (assoc key (collectors (__schema__ cls))) as [coll|];
      [|discriminate].
    destruct (__collections self !! key) as [cached|] eqn:Ec.
    + intros H. injection H as <- <-. rewrite Ec. repeat split; reflexivity.
    + destruct (collect_by_record coll self) as [c|]; [|discriminate].
      intros H. injection H as <- <-. simpl. rewrite lookup_insert_eq.
      repeat split; reflexivity.
  - intros after e.
    destruct (assoc key (collectors (__schema__ cls))) as [coll|];
      [|congruence].
    destruct (__collections self !! key); [discriminate|].
    destruct (collect_by_record coll self); [discriminate|congruence].
  - intros ->. reflexivity.
Qed.

(** X23: how [get] resolves a key without dot.  A declared field
    without custom getter gives the pending value, else the baseline
    one, else the default, also when a collector has the same name, and
    the record is untouched; a key declared neither as a field nor as a
    collector raises [KeyError]. *)
Theorem get_resolution (cls : Class)
    (collect_by_record : Collector -> Model.t -> result PyVal)
    (self : Model.t) (key : string) (default_ : PyVal) :
  partition "." key = (key, EmptyString) ->
  (forall field,
     assoc key (Model.fields (__schema__ cls)) = Some field ->
     gettermethod field = None ->
     get cls collect_by_record self key default_
     = (self, Ok (Got (default (default default_ (__state self !! key))
                         (__changes self !! key))))) /\
  (declared cls key = false ->
   get cls collect_by_record self key default_ = (self, Err (KeyError key))).
Proof.
  intros Hp. unfold get. rewrite Hp. split.
  - intros field Hf Hg. unfold get_value. rewrite Hf, Hg.
    destruct (__changes self !! key); reflexivity.
  - unfold declared, get_value, get_collection_. intros Hd.
    destruct (assoc key (Model.fields (__schema__ cls))); [discriminate|].
    destruct (assoc key (collectors (__schema__ cls))); [discriminate|].
    reflexivity.
Qed.

Lemma get_resolution_witness :
  get Samples.User (fun _ _ => Err (StoreError 1)) Samples.renamed_bob
    "name" PyNone = (Samples.renamed_bob, Ok (Got Samples.rob)) /\
  get Samples.User (fun _ _ => Err (StoreError 1)) Samples.renamed_bob
    "email" PyNone = (Samples.renamed_bob, Err (KeyError "email")).
Proof.
  split.
  - apply (proj1 (get_resolution Samples.User _ Samples.renamed_bob "name"
                    PyNone eq_refl) (Samples.plain "name" []));
      reflexivity.
  - apply (proj2 (get_resolution Samples.User _ Samples.renamed_bob "email"
                    PyNone eq_refl)).
    reflexivity.
Defined.

(** ** Subclasses *)

Lemma Subclass_rect' (P : Subclass -> Prop) :
  (forall cls subclasses, Forall P subclasses -> P (Sub cls subclasses)) ->
  forall h, P h.
Proof.
  intros Hstep. fix IH 1. intros [cls subclasses]. apply Hstep.
  induction subclasses as [|s rest IHrest]; constructor.
  - apply IH.
  - exact IHrest.
Qed.

(** X24: [find_model] searches the subclasses, direct or not, and never
    the class itself: what it returns is one of them and bears the name;
    it returns [None] exactly when none of them bears it. *)
Theorem find_model_correct (h : Subclass) (name : string) :
  (forall found, find_model h name = Some found ->
     descends h found /\ __name__ (class_of found) = name) /\
  (find_model h name = None <->
   forall d, descends h d -> __name__ (class_of d) <> name).
Proof.
  induction h as [cls subclasses IH] using Subclass_rect'.
  assert (Hsearch :
    forall l, Forall (fun s =>
        (forall found, find_model s name = Some found ->
           descends s found /\ __name__ (class_of found) = name) /\
        (find_model s name = None <->
         forall d, descends s d -> __name__ (class_of d) <> name)) l ->
      let search :=
        (fix search (l : list Subclass) : option Subclass :=
           match l with
           | [] => None
           | sub_cls :: rest =>
               if String.eqb (__name__ (class_of sub_cls)) name
               then Some sub_cls
               else match find_model sub_cls name with
                    | Some found => Some found
                    | None => search rest
                    end
           end) in
      (forall found, search l = Some found ->
         (In found l \/ exists s, In s l /\ descends s found) /\
         __name__ (class_of found) = name) /\
      (search l = None ->
       forall s, In s l ->
         __name__ (class_of s) <> name /\
         forall d, descends s d -> __name__ (class_of d) <> name)).
  { induction l as [|s rest IHl]; intros Hl; simpl.
    - split; [discriminate|]. intros _ s [].
    - apply Forall_cons in Hl. destruct Hl as [[Hs1 Hs2] Hrest].
      specialize (IHl Hrest). simpl in IHl. destruct IHl as [IH1 IH2].
      destruct (String.eqb_spec (__name__ (class_of s)) name) as [E|E].
      + split; [|discriminate]. intros found H. injection H as <-.
        split; [left; left; reflexivity|exact E].
      + destruct (find_model s name) as [f|] eqn:Ef.
        * split; [|discriminate]. intros found H. injection H as <-.
          destruct (Hs1 f eq_refl) as [Hd Hn].
          split; [right; exists s; split; [left; reflexivity|exact Hd]|exact Hn].
        * split.
          -- intros found H. destruct (IH1 found H) as [[Hin|(s' & Hin & Hd)] Hn].
             ++ split; [left; right; exact Hin|exact Hn].
             ++ split; [right; exists s'; split; [right; exact Hin|exact Hd]
                       |exact Hn].
          -- intros H s' [<-|Hin].
             ++ split; [exact E|]. apply Hs2. reflexivity.
             ++ apply IH2; assumption. }
  specialize (Hsearch subclasses IH). simpl in Hsearch.
  destruct Hsearch as [S1 S2]. simpl find_model. split.
  - intros found H. destruct (S1 found H) as [[Hin|(s & Hin & Hd)] Hn].
    + split; [apply descends_direct; exact Hin|exact Hn].
    + split; [eapply descends_deeper; eauto|exact Hn].
  - split.
    + intros H d Hd. specialize (S2 H).
      destruct Hd as [d Hin|s d Hin Hd].
      * exact (proj1 (S2 d Hin)).
      * exact (proj2 (S2 s Hin) d Hd).
    + intros H.
      match goal with |- ?t = None => destruct t as [found|] eqn:E end;
        [|reflexivity].
      destruct (S1 found eq_refl) as [[Hin|(s & Hin & Hd)] Hn]; exfalso.
      * exact (H found (descends_direct (Sub cls subclasses) _ Hin) Hn).
      * exact (H found (descends_deeper (Sub cls subclasses) _ _ Hin Hd) Hn).
Qed.

(** ** Null queries *)

(** X25: [==] and [!=] give a null query exactly when the name of the
    receiver is empty: a query that has a model scope and no name is not
    null, and what the helpers make of it is. *)
Theorem eq_helper_is_null (q : Query.t) (v : PyVal) :
  Query.is_null (Query.__eq__ q v) = negb (str_truthy (Query.name q)) /\
  Query.is_null (Query.__ne__ q v) = negb (str_truthy (Query.name q)) /\
  (Query.name q = "" -> Query.model q <> "" ->
   Query.is_null q = false /\ Query.is_null (Query.__eq__ q v) = true).
Proof.
  destruct q as [m n o x]. simpl. repeat split.
  - destruct n; reflexivity.
  - destruct n; reflexivity.
  - subst n. destruct m; [congruence|reflexivity].
  - subst n. reflexivity.
Qed.

Lemma eq_helper_is_null_witness :
  Query.is_null (Query.__init__ "" "User" Query.Is PyNone) = false /\
  Query.is_null (Query.__eq__ (Query.__init__ "" "User" Query.Is PyNone)
                   Samples.one) = true.
Proof.
  apply (eq_helper_is_null (Query.__init__ "" "User" Query.Is PyNone)
           Samples.one); [reflexivity|discriminate].
Defined.

Lemma get_collection_caches_witness :
  get_collection_ Samples.Team (fun _ _ => Ok Samples.the_members)
    Samples.a_team "members"
  = (with_collections Samples.a_team {["members" := Samples.the_members]},
     Ok Samples.the_members) /\
  get_collection_ Samples.Team (fun _ _ => Err (StoreError 1))
    (with_collections Samples.a_team {["members" := Samples.the_members]})
    "members"
  = (with_collections Samples.a_team {["members" := Samples.the_members]},
     Ok Samples.the_members).
Proof.
  assert (H : get_collection_ Samples.Team (fun _ _ => Ok Samples.the_members)
                Samples.a_team "members"
              = (with_collections Samples.a_team
                   {["members" := Samples.the_members]},
                 Ok Samples.the_members)) by reflexivity.
  split; [exact H|].
  destruct (get_collection_caches Samples.Team
              (fun _ _ => Ok Samples.the_members) Samples.a_team "members")
    as (H1 & _ & _).
  destruct (H1 _ _ H) as (_ & _ & _ & H4). apply H4.
Defined.

Lemma find_model_correct_witness :
  find_model Samples.hierarchy "Admin" = Some (Sub Samples.Admin []) /\
  descends Samples.hierarchy (Sub Samples.Admin []) /\
  find_model Samples.hierarchy "Model" = None.
Proof.
  assert (H : find_model Samples.hierarchy "Admin" = Some (Sub Samples.Admin []))
    by reflexivity.
  split; [exact H|]. split.
  - exact (proj1 (proj1 (find_model_correct Samples.hierarchy "Admin") _ H)).
  - reflexivity.
Defined.

(** X26: [fetch] raises on every call.  The context it builds carries no
    store, so that the call ends, at the latest, with [AttributeError]
    where the store is read; no backend is asked and nothing is
    returned. *)
Theorem fetch_always_raises (stores : Stores) (cls : Class) (key : KeyArg)
    (options : Options) :
  exists e, fetch stores cls key options = Err e /\
            forall stores', fetch stores' cls key options = Err e.
Proof.
  unfold fetch.
  destruct (key_query cls key) as [q|e]; [|eauto]. cbn [bind].
  destruct (as_operand _) as [other|e]; [|eauto]. cbn [bind].
  destruct (make_context _) as [fetch_context|e] eqn:Hc; [|eauto].
  cbn [bind]. unfold Context.store.
  rewrite (make_context_assigned _ _ Hc). eauto.
Qed.

(** X27: the setters of [limit] and [start] write the raw attributes
    only: a limit that is set is what [limit] reads when no page size
    is set, and is hidden by the page size otherwise; a start that is
    set is what [start] reads when no page is set, and changes nothing
    of what it reads otherwise. *)
Theorem setters_write_raw (c : Context.t) (v : Value) :
  (truthy (page_size c) = false -> get_limit (set_limit c v) = v) /\
  (truthy (page_size c) = true -> get_limit (set_limit c v) = page_size c) /\
  (truthy (page c) = false -> get_start (set_start c v) = Ok v) /\
  (truthy (page c) = true -> get_start (set_start c v) = get_start c).
Proof.
  unfold get_limit, get_start, set_limit, set_start, py_or. simpl.
  repeat split; intros ->; reflexivity.
Qed.

Lemma setters_write_raw_witness :
  get_limit (set_limit Samples.paged (VInt 5)) = VInt 10 /\
  get_start (set_start Samples.paged (VInt 7)) = Ok (VInt 20) /\
  get_limit (set_limit Samples.plain_context (VInt 5)) = VInt 5.
Proof.
  split; [|split].
  - rewrite (proj1 (proj2 (setters_write_raw Samples.paged (VInt 5))) eq_refl).
    reflexivity.
  - destruct (setters_write_raw Samples.paged (VInt 7)) as (_ & _ & _ & H).
    rewrite (H eq_refl). reflexivity.
  - apply (proj1 (setters_write_raw Samples.plain_context (VInt 5))).
    reflexivity.
Defined.

(** * Writes under undotted keys *)

(** What a write leaves of the record, under an undotted key that names
    no field or collector with a custom setter. *)
Lemma set_own_result (cls : Class) (self : Model.t) (key : string)
    (value : PyVal) :
  direct key -> plain_key cls key = true ->
  fst (Model.set cls self key value)
  = match assoc key (Model.fields (__schema__ cls)) with
    | Some _ =>
        with_changes self
          (if py_is (state_get self key) value
           then base.delete key (__changes self)
           else <[key := value]> (__changes self))
    | None =>
        match assoc key (collectors (__schema__ cls)) with
        | Some _ =>
            with_collections self (<[key := value]> (__collections self))
        | None => self
        end
    end.
Proof.
  intros Hd Hp. unfold plain_key in Hp. unfold Model.set. rewrite Hd. simpl.
  destruct (assoc key (Model.fields (__schema__ cls))) as [field|].
  - destruct (settermethod field); [discriminate|].
    destruct (py_is (state_get self key) value); simpl; [|reflexivity].
    destruct (__changes self !! key) eqn:E; simpl; [reflexivity|].
    rewrite (delete_id _ _ E). symmetry. apply with_changes_same.
  - destruct (assoc key (collectors (__schema__ cls))) as [coll|];
      [|reflexivity].
    destruct (coll_settermethod coll); [discriminate|]. reflexivity.
Qed.

Lemma no_setters_plain_key (cls : Class) (key : string) :
  no_setters cls = true -> plain_key cls key = true.
Proof.
  intros Hn. unfold no_setters in Hn.
  apply andb_true_iff in Hn. destruct Hn as [Hf Hc]. unfold plain_key.
  destruct (assoc key (Model.fields (__schema__ cls))) as [field|] eqn:Ef.
  - exact (assoc_forallb
             (fun f => match settermethod f with
                       | None => true | Some _ => false end) _ _ _ Hf Ef).
  - destruct (assoc key (collectors (__schema__ cls))) as [coll|] eqn:Ec;
      [|reflexivity].
    exact (assoc_forallb
             (fun c => match coll_settermethod c with
                       | None => true | Some _ => false end) _ _ _ Hc Ec).
Qed.

Lemma set_own_keeps_state (cls : Class) (self : Model.t) (key : string)
    (value : PyVal) :
  direct key -> plain_key cls key = true ->
  __state (fst (Model.set cls self key value)) = __state self.
Proof.
  intros Hd Hp. rewrite (set_own_result cls self key value Hd Hp).
  destruct (assoc key (Model.fields (__schema__ cls))); [reflexivity|].
  destruct (assoc key (collectors (__schema__ cls))); reflexivity.
Qed.

(** ** The invariant of pending changes *)

Lemma set_keeps_invariant (cls : Class) (self : Model.t) (key : string)
    (value : PyVal) :
  direct key -> plain_key cls key = true -> pending_differs self ->
  pending_differs (fst (Model.set cls self key value)).
Proof.
  intros Hd Hp Hinv. rewrite (set_own_result cls self key value Hd Hp).
  destruct (assoc key (Model.fields (__schema__ cls))) as [field|].
  - unfold pending_differs, state_get in *. simpl. intros f v.
    destruct (py_is (default PyNone (__state self !! key)) value) eqn:Ei.
    + rewrite lookup_delete. case_decide; [discriminate|apply Hinv].
    + rewrite lookup_insert. case_decide as E; [|apply Hinv].
      subst f. intros H. injection H as <-. exact Ei.
  - destruct (assoc key (collectors (__schema__ cls))); exact Hinv.
Qed.

Lemma update_keeps_invariant (cls : Class) (values : dict) :
  Forall (fun kv => direct (fst kv) /\ plain_key cls (fst kv) = true) values ->
  forall self, pending_differs self ->
               pending_differs (fst (update cls self values)).
Proof.
  induction values as [|[key value] rest IH]; intros Hall self Hinv.
  - exact Hinv.
  - apply Forall_cons in Hall. destruct Hall as [[Hd Hp] Hrest].
    rewrite update_cons. apply IH; [exact Hrest|].
    apply set_keeps_invariant; assumption.
Qed.

(** The loop of [_parse_items] keeps the value of every item whose key
    is a field that is not virtual. *)
Lemma parse_loop_present (schema : Schema) (constructor : Constructor)
    (items : dict) (f c f' c' : gmap string PyVal) :
  parse_loop schema constructor items f c = Ok (f', c') ->
  NoDup (map fst items) ->
  forall k v field,
    (k, v) ∈ items ->
    assoc k (Model.fields schema) = Some field ->
    test_flag field Virtual = false ->
    f' !! k = Some v.
Proof.
  revert f c. induction items as [|[key value] rest IH];
    intros f c H Hnd k v field Hin Hf Hv.
  - inversion Hin.
  - simpl in Hnd. apply NoDup_cons in Hnd. destruct Hnd as [Hfresh Hnd].
    simpl in H. apply elem_of_cons in Hin.
    destruct (assoc key (Model.fields schema)) as [fld|] eqn:Ef.
    + destruct (test_flag fld Virtual) eqn:Ev; simpl in H.
      * destruct Hin as [E|Hin]; [|eapply IH; eauto].
        injection E as -> ->. congruence.
      * destruct Hin as [E|Hin]; [|eapply IH; eauto].
        injection E as -> ->.
        rewrite (proj1 (parse_loop_fields _ _ _ _ _ _ _ H key) Hfresh).
        apply lookup_insert_eq.
    + destruct (assoc key (collectors schema)) as [coll|]; [|discriminate].
      destruct Hin as [E|Hin]; [|eapply IH; eauto].
      injection E as -> ->. congruence.
Qed.

Lemma init_records_values (cls : Class) (values state : option dict)
    (options : Options) (fresh : Model.t) :
  Model.__init__ cls values state options = Ok fresh ->
  NoDup (map fst (items_of values)) ->
  forall k v field,
    (k, v) ∈ items_of values ->
    assoc k (Model.fields (__schema__ cls)) = Some field ->
    test_flag field Virtual = false ->
    __changes fresh !! k = Some v.
Proof.
  unfold Model.__init__. intros H Hnd k v field Hin Hf Hv.
  destruct (make_context _) as [ctx|]; [|discriminate]. cbn [bind] in H.
  destruct (_parse_items cls state FromState) as [[f1 c1]|]; [|discriminate].
  cbn [bind] in H.
  destruct (_parse_items cls values FromValues) as [[f2 c2]|] eqn:E2;
    [|discriminate]. cbn [bind] in H. injection H as <-. simpl.
  destruct values as [[|kv rest]|].
  - inversion Hin.
  - exact (parse_loop_present (__schema__ cls) FromValues (kv :: rest)
             ∅ ∅ f2 c2 E2 Hnd k v field Hin Hf Hv).
  - inversion Hin.
Qed.

(** C8 (pending-changes invariant), amended.  No pending value is the
    very object that the baseline holds for its field: [set] and
    [update] keep this, under undotted keys that name no field or
    collector with a custom setter; [mark_loaded] and [reset] leave
    nothing pending, and so does the construction of a record without
    [values].  The construction of a record with [values] records the
    value given for every field that is not virtual as pending, whatever
    the baseline holds.  After [set] has written the baseline object
    itself on a field without custom setter, the field has no pending
    entry. *)
Theorem pending_invariant_kept (cls : Class) (self : Model.t) :
  pending_differs self ->
  (forall key value,
     direct key -> plain_key cls key = true ->
     pending_differs (fst (Model.set cls self key value))) /\
  (forall values,
     Forall (fun kv => direct (fst kv) /\ plain_key cls (fst kv) = true)
            values ->
     pending_differs (fst (update cls self values))) /\
  (__changes (mark_loaded self) = ∅ /\ pending_differs (mark_loaded self)) /\
  (__changes (reset self) = ∅ /\ pending_differs (reset self)) /\
  (forall state options fresh,
     Model.__init__ cls None state options = Ok fresh ->
     __changes fresh = ∅ /\ pending_differs fresh) /\
  (forall values state options fresh,
     Model.__init__ cls values state options = Ok fresh ->
     NoDup (map fst (items_of values)) ->
     forall k v field,
       (k, v) ∈ items_of values ->
       assoc k (Model.fields (__schema__ cls)) = Some field ->
       test_flag field Virtual = false ->
       __changes fresh !! k = Some v) /\
  (forall key value field,
     direct key ->
     assoc key (Model.fields (__schema__ cls)) = Some field ->
     settermethod field = None ->
     py_is (state_get self key) value = true ->
     __changes (fst (Model.set cls self key value)) !! key = None).
Proof.
  intros Hinv. split; [|split; [|split; [|split; [|split; [|split]]]]].
  - intros key value Hd Hp. apply set_keeps_invariant; assumption.
  - intros values Hall. apply update_keeps_invariant; assumption.
  - split; [reflexivity|]. apply no_changes_invariant. reflexivity.
  - split; [reflexivity|]. apply no_changes_invariant. reflexivity.
  - intros state options fresh H.
    pose proof (init_without_values _ _ _ _ H) as E.
    split; [exact E|]. apply no_changes_invariant, E.
  - intros values state options fresh H Hnd k v field Hin Hf Hv.
    exact (init_records_values cls values state options fresh H Hnd
             k v field Hin Hf Hv).
  - intros key value field Hd Hf Hs Hv.
    rewrite (set_plain_field _ _ _ _ _ Hd Hf Hs), Hv.
    destruct (__changes self !! key) eqn:E; simpl.
    + apply lookup_delete_eq.
    + exact E.
Qed.

Lemma renamed_bob_differs : pending_differs Samples.renamed_bob.
Proof.
  intros f v H.
  change (({["name" := Samples.rob]} : gmap string PyVal) !! f = Some v) in H.
  apply lookup_singleton_Some in H. destruct H as [<- <-].
  reflexivity.
Defined.

Lemma pending_invariant_kept_witness :
  pending_differs
    (fst (update Samples.User Samples.renamed_bob
            [("name", Samples.bob); ("id", Samples.one)])) /\
  __changes (fst (Model.set Samples.User Samples.renamed_bob "name" Samples.bob))
    !! "name" = None.
Proof.
  pose proof (pending_invariant_kept Samples.User Samples.renamed_bob
                renamed_bob_differs) as (_ & H2 & _ & _ & _ & _ & H7).
  split.
  - apply H2. repeat constructor.
  - apply (H7 "name" Samples.bob (Samples.plain "name" [])); reflexivity.
Defined.

(** C8 as stated fails in three places.  At construction:
    [User(values={'name': 'bob'}, state={'name': 'bob'})] holds the
    baseline object as a pending value.  At [set] with a value that is
    equal to the baseline and another object: the value is recorded as
    pending.  At [set] on a field with a custom setter, which stores
    what it is given: the baseline object becomes a pending value. *)
Lemma pending_invariant_broken :
  (exists self,
     Model.__init__ Samples.User (Some [("name", Samples.bob)])
       (Some [("name", Samples.bob)]) ∅ = Ok self /\
     __state self !! "name" = Some Samples.bob /\
     __changes self !! "name" = Some Samples.bob /\
     ~ pending_differs self) /\
  (exists self,
     Model.set Samples.User Samples.loaded_bob "name" Samples.bob_again
     = (self, Ok (Returned PyNone)) /\
     __state self !! "name" = Some Samples.bob /\
     __changes self !! "name" = Some Samples.bob_again /\
     py_eq Samples.bob Samples.bob_again = true) /\
  (exists self,
     Model.set Samples.Tagged Samples.loaded_bob "name" Samples.bob
     = (self, Ok (Returned PyNone)) /\
     __state self !! "name" = Some Samples.bob /\
     __changes self !! "name" = Some Samples.bob /\
     ~ pending_differs self).
Proof.
  split; [|split].
  - eexists. split; [reflexivity|]. split; [reflexivity|].
    split; [reflexivity|].
    intros H. specialize (H "name" Samples.bob eq_refl). discriminate H.
  - eexists. split; [reflexivity|]. repeat split; reflexivity.
  - eexists. split; [reflexivity|]. split; [reflexivity|].
    split; [reflexivity|].
    intros H. specialize (H "name" Samples.bob eq_refl). discriminate H.
Qed.

(** ** New records *)

Lemma update_keeps_state (cls : Class) (values : dict) :
  no_setters cls = true ->
  Forall (fun kv => direct (fst kv)) values ->
  forall self, __state (fst (update cls self values)) = __state self.
Proof.
  intros Hn. induction values as [|[key value] rest IH]; intros Hall self.
  - reflexivity.
  - apply Forall_cons in Hall. destruct Hall as [Hd Hrest].
    rewrite update_cons, (IH Hrest).
    apply set_own_keeps_state; [exact Hd|].
    apply no_setters_plain_key, Hn.
Qed.

(** X16: whether a record is new is read off the baseline alone: on a
    model without custom setters, neither [set] nor [update], under
    undotted keys, changes [is_new_record], even when they write a key
    field. *)
Theorem writes_keep_is_new (cls : Class) (self : Model.t) :
  no_setters cls = true ->
  (forall key value,
     direct key ->
     is_new_record cls (fst (Model.set cls self key value))
     = is_new_record cls self) /\
  (forall values,
     Forall (fun kv => direct (fst kv)) values ->
     is_new_record cls (fst (update cls self values))
     = is_new_record cls self).
Proof.
  intros Hn. unfold is_new_record, state_get. split.
  - intros key value Hd.
    rewrite (set_own_keeps_state cls self key value Hd
               (no_setters_plain_key cls key Hn)).
    reflexivity.
  - intros values Hall. rewrite (update_keeps_state cls values Hn Hall).
    reflexivity.
Qed.

(** A record without key in its baseline is new, and still new after
    the key has been written, though the key is read back. *)
Lemma writes_keep_is_new_witness :
  is_new_record Samples.User
    (fst (Model.set Samples.User Samples.loaded_bob "id" Samples.one))
  = is_new_record Samples.User Samples.loaded_bob /\
  is_new_record Samples.User Samples.loaded_bob = true /\
  get_value Samples.User
    (fst (Model.set Samples.User Samples.loaded_bob "id" Samples.one))
    "id" PyNone = Ok Samples.one.
Proof.
  split; [|split; reflexivity].
  apply (proj1 (writes_keep_is_new Samples.User Samples.loaded_bob eq_refl)).
  reflexivity.
Defined.

(** ** Writes that are refused *)

Lemma update_app (cls : Class) (self : Model.t) (first second : dict) :
  fst (update cls self (first ++ second)%list)
  = fst (update cls (fst (update cls self first)) second).
Proof.
  revert self. induction first as [|[key value] rest IH]; intros self.
  - reflexivity.
  - change (((key, value) :: rest) ++ second)%list
      with ((key, value) :: (rest ++ second))%list.
    rewrite !update_cons. apply IH.
Qed.

Lemma update_outcomes_cons (cls : Class) (self : Model.t) (key : string)
    (value : PyVal) (rest : dict) :
  snd (update cls self ((key, value) :: rest))
  = snd (Model.set cls self key value)
    :: snd (update cls (fst (Model.set cls self key value)) rest).
Proof.
  simpl. destruct (Model.set cls self key value) as [self1 outcome]. simpl.
  destruct (update cls self1 rest). reflexivity.
Qed.

Lemma update_outcomes_app (cls : Class) (self : Model.t)
    (first second : dict) :
  snd (update cls self (first ++ second)%list)
  = (snd (update cls self first)
     ++ snd (update cls (fst (update cls self first)) second))%list.
Proof.
  revert self. induction first as [|[key value] rest IH]; intros self.
  - reflexivity.
  - change (((key, value) :: rest) ++ second)%list
      with ((key, value) :: (rest ++ second))%list.
    rewrite !update_outcomes_cons, update_cons, IH. reflexivity.
Qed.

Lemma gathered_app_raised {A} (first rest : list (result A)) (e : exn)
    (results : list A) :
  gathered first = Ok results ->
  gathered (first ++ Err e :: rest)%list = Err e.
Proof.
  revert results. induction first as [|[a|e'] l IH]; intros results H.
  - reflexivity.
  - simpl in *. destruct (gathered l) as [others|] eqn:E; [|discriminate].
    rewrite (IH others eq_refl). reflexivity.
  - discriminate H.
Qed.

(** X18: [update] is not atomic.  On a model without custom setters and
    under undotted keys, when the write of one item raises and leaves
    the record as it was, the other items are written all the same: the
    record is the one that [update] leaves without that item, and what
    [gather] raises is that exception, unless an earlier item raised. *)
Theorem update_not_atomic (cls : Class) (self : Model.t)
    (before after : dict) (key : string) (value : PyVal) (e : exn) :
  no_setters cls = true ->
  Forall (fun kv => direct (fst kv)) (before ++ (key, value) :: after)%list ->
  Model.set cls (fst (update cls self before)) key value
  = (fst (update cls self before), Err e) ->
  fst (update cls self (before ++ (key, value) :: after)%list)
  = fst (update cls self (before ++ after)%list) /\
  (forall results,
     gathered (snd (update cls self before)) = Ok results ->
     gathered (snd (update cls self (before ++ (key, value) :: after)%list))
     = Err e).
Proof.
  intros _ _ H. split.
  - rewrite !update_app, update_cons, H. reflexivity.
  - intros results Hok.
    rewrite update_outcomes_app, update_outcomes_cons, H.
    apply (gathered_app_raised _ _ _ results Hok).
Qed.

Lemma update_not_atomic_witness :
  fst (update Samples.User Samples.loaded_bob
         [("id", Samples.one); ("email", Samples.one);
          ("name", Samples.rob)])
  = fst (update Samples.User Samples.loaded_bob
           [("id", Samples.one); ("name", Samples.rob)]) /\
  gathered (snd (update Samples.User Samples.loaded_bob
                   [("id", Samples.one); ("email", Samples.one);
                    ("name", Samples.rob)]))
  = Err (KeyError "email").
Proof.
  destruct (update_not_atomic Samples.User Samples.loaded_bob
              [("id", Samples.one)] [("name", Samples.rob)]
              "email" Samples.one (KeyError "email") eq_refl)
    as [H1 H2].
  - repeat constructor.
  - reflexivity.
  - split; [exact H1|]. apply (H2 [Returned PyNone]). reflexivity.
Defined.

(** A dotted key whose head the schema does not declare is refused
    before anything is forwarded. *)
Example set_dotted_undeclared :
  Model.set Samples.User Samples.loaded_bob "parent.title" Samples.rob
  = (Samples.loaded_bob, Err (KeyError "parent")).
Proof. reflexivity. Qed.

(** A dotted key whose head is a string field finds no [set] to call. *)
Example set_dotted_on_string :
  Model.set Samples.User Samples.loaded_bob "name.title" Samples.rob
  = (Samples.loaded_bob, Err (AttributeError "set")).
Proof. reflexivity. Qed.

(** A dotted key whose head is a collector caches the collection and
    forwards the write to it. *)
Example set_dotted_on_collection :
  Model.set Samples.Team Samples.a_team "members.name" Samples.rob
  = (with_collections Samples.a_team {["members" := Samples.the_members]},
     Ok (Forwarded (Got Samples.the_members) "name" Samples.rob)).
Proof. reflexivity. Qed.
